(** * talos-pxe: boot orchestration and dispatch core

  A shallow embedding of [server.go] and of the program entry point
  (constants, boot-menu template, [runDhclient], [main]) together with
  the properties of the address range planner, the bootstrap mode
  selector, the listener supervisor and the boot dispatch filter. *)

From stdpp Require Import base numbers list strings gmap pretty.

Local Open Scope Z_scope.

(** ** Constants of the entry point *)

Module Const.
Definition portDNS : Z := 53.
Definition portDHCP : Z := 67.
Definition portTFTP : Z := 69.
Definition portHTTP : Z := 8080.
Definition portPXE : Z := 4011.
Definition forwardDns : string := "1.1.1.1:53".
Definition defaultControlplane : string := "controlplane.talos.".

(** [net/http] status codes used by the dispatch filter. *)
Definition StatusOK : Z := 200.
Definition StatusNotFound : Z := 404.
Definition StatusInternalServerError : Z := 500.
End Const.

(** ** Addresses and prefixes ([net.IP], [net.IPNet]) *)

Module Net.

(** A [net.IP] is a byte slice that is nil, an IPv4 address or an IPv6
    address; the numeric value of the address is kept. *)
Inductive IP : Type :=
| IPnil
| IPv4 (a : Z)
| IPv6 (a : Z).

#[global] Instance IP_eq_dec : EqDecision IP.
Proof. solve_decision. Defined.

(** a.b.c.d as a 32-bit number. *)
Definition quad (a b c d : Z) : Z := a * 2 ^ 24 + b * 2 ^ 16 + c * 2 ^ 8 + d.

(** An IPv4 [net.IPNet]: network address and number of leading ones of
    the mask. *)
Record IPNet : Type := mkIPNet { net_IP : Z; net_ones : Z }.

Definition net_size (n : IPNet) : Z := 2 ^ (32 - net_ones n).
Definition network (n : IPNet) : Z := net_IP n.
Definition broadcast (n : IPNet) : Z := net_IP n + net_size n - 1.

(** [IPNet.Contains]. *)
Definition Contains (n : IPNet) (a : Z) : bool :=
  (network n <=? a) && (a <=? broadcast n).

(** [IP.String] on the nil and IPv4 forms; the IPv6 text form is left
    to the library. *)
Definition quad_String (a : Z) : string :=
  pretty (a / 2 ^ 24) +:+ "." +:+ pretty ((a / 2 ^ 16) mod 256) +:+ "."
    +:+ pretty ((a / 2 ^ 8) mod 256) +:+ "." +:+ pretty (a mod 256).

End Net.

(** ** Address range planner *)

Module Planner.
Import Net.

Inductive PlanError : Type := InvalidPrefixError.

Record AddressRange : Type := mkRange { first : Z; last : Z }.

(** Modelled from the spec: [getAvailableRange] is called by [main] but
    its body is not part of the available sources.  Section 4.1: the
    planner fails with [InvalidPrefixError] when the prefix has fewer
    than 4 addresses; the first address is [network+1] unless that is
    the host address, in which case [network+2]; the last address is
    [broadcast-1] unless that is the host address, in which case
    [broadcast-2]. *)
Definition getAvailableRange (netNet : IPNet) (netIp : Z)
  : PlanError + AddressRange :=
  if net_size netNet <? 4 then inl InvalidPrefixError
  else
    let firstIp :=
      if network netNet + 1 =? netIp then network netNet + 2
      else network netNet + 1 in
    let lastIp :=
      if broadcast netNet - 1 =? netIp then broadcast netNet - 2
      else broadcast netNet - 1 in
    inr (mkRange firstIp lastIp).

(** An address lies in the inclusive range. *)
Definition in_range (r : AddressRange) (a : Z) : bool :=
  (first r <=? a) && (a <=? last r).

(** The property the planner is expected to have: ordered endpoints and
    none of the three reserved addresses inside the range. *)
Definition plan_ok (netNet : IPNet) (netIp : Z) (r : AddressRange) : Prop :=
  first r <= last r
  /\ in_range r (network netNet) = false
  /\ in_range r (broadcast netNet) = false
  /\ in_range r netIp = false.

Definition net24 : IPNet := mkIPNet (quad 192 168 123 0) 24.

End Planner.

(** ** Errors, logging and the library functions the program calls *)

Module Go.
Import Net.

(** A Go [error] value, identified by its message. *)
Inductive error : Type := mkError (msg : string).

Definition error_msg (e : error) : string := let 'mkError m := e in m.

#[global] Instance error_eq_dec : EqDecision error.
Proof. solve_decision. Defined.

(** logrus entries written through the global [log]. *)
Inductive Level : Type := InfoLevel | ErrorLevel | PanicLevel.

Definition LogEntry : Type := Level * string.

(** [url.Values] and [http.Header]: a key maps to the ordered list of
    its values. *)
Abbreviation Values := (gmap string (list string)).

(** [Values.Get]: the first value of the key, or the empty string. *)
Definition Get (v : Values) (key : string) : string :=
  match v !! key with
  | Some (x :: _) => x
  | _ => EmptyString
  end.

(** The request fields read by the dispatch filter. *)
Record Request : Type := mkRequest { URL_Path : string; URL_RawQuery : string }.

(** The bitmap allocator of coredhcp: its address range and its bitmap
    of handed-out addresses. *)
Record Allocator : Type :=
  mkAllocator { alloc_start : Z; alloc_end : Z; alloc_bitmap : list bool }.

(** Functions of the Go standard library and of third-party packages
    that the program calls; they are outside the repository. *)
Class Library : Type := {
  (** [net.ParseIP]; nil when the text is not an address. *)
  ParseIP : string -> IP;
  (** [net.ParseCIDR] on an IPv4 prefix: host address and network. *)
  ParseCIDR : string -> error + (Z * IPNet);
  (** [IP.String] for an IPv6 address. *)
  String6 : Z -> string;
  (** [Request.ParseForm]: the parsed form, or the parse error. *)
  ParseForm : Request -> error + Values;
  (** [textproto.CanonicalMIMEHeaderKey]. *)
  CanonicalMIMEHeaderKey : string -> string;
  (** [bitmap.NewIPv4Allocator]. *)
  NewIPv4Allocator : Z -> Z -> error + Allocator;
  (** [http.DetectContentType]: the MIME type sniffed from the first
      bytes of a body. *)
  DetectContentType : string -> string;
}.

(** [IP.String]. *)
Definition IP_String `{Library} (ip : IP) : string :=
  match ip with
  | IPnil => "<nil>"
  | IPv4 a => quad_String a
  | IPv6 a => String6 a
  end.

End Go.

(** ** HTTP response writers and the boot-menu template *)

Module Http.
Import Net Go Const.

(** [Header.Add]: append the value under the canonical form of the key. *)
Definition Header_Add `{Library} (key value : string) (h : Values) : Values :=
  let k := CanonicalMIMEHeaderKey key in
  <[k := default [] (h !! k) ++ [value]]> h.

(** The [http.ResponseWriter] interface.  [Header()] returns the header
    map of the writer, which callers mutate in place: [set_Header]
    stores the mutated map back. *)
Class ResponseWriter (W : Type) : Type := {
  Header : W -> Values;
  set_Header : Values -> W -> W;
  WriteHeader : Z -> W -> W;
  Write : string -> W -> W * option error;
}.

(** [httptest.ResponseRecorder]. *)
Record ResponseRecorder : Type := mkRecorder {
  Code : Z;
  HeaderMap : Values;
  Body : string;
  wroteHeader : bool;
}.

(** [httptest.NewRecorder]: the code defaults to 200. *)
Definition NewRecorder : ResponseRecorder :=
  mkRecorder 200 ∅ EmptyString false.

(** [ResponseRecorder.WriteHeader]: only the first call takes effect. *)
Definition rr_WriteHeader (code : Z) (rr : ResponseRecorder) : ResponseRecorder :=
  if wroteHeader rr then rr
  else mkRecorder code (HeaderMap rr) (Body rr) true.

(** [ResponseRecorder.writeHeader], called by [Write] with the bytes
    about to be written: when no header was written yet, a content type
    sniffed from those bytes is set unless the header map has a
    [Content-Type] entry or a non-empty [Transfer-Encoding], and status
    200 is committed. *)
Definition rr_writeHeader `{Library} (b : string) (rr : ResponseRecorder)
  : ResponseRecorder :=
  if wroteHeader rr then rr
  else
    let m := HeaderMap rr in
    let hasType := bool_decide (is_Some (m !! "Content-Type")) in
    let hasTE :=
      negb (String.eqb (Get m (CanonicalMIMEHeaderKey "Transfer-Encoding"))
              EmptyString) in
    let m1 :=
      if negb hasType && negb hasTE
      then <[CanonicalMIMEHeaderKey "Content-Type" := [DetectContentType b]]> m
      else m in
    rr_WriteHeader StatusOK (mkRecorder (Code rr) m1 (Body rr) (wroteHeader rr)).

(** [ResponseRecorder.Write]: [writeHeader] on the bytes, then the bytes
    are appended to the body; it never fails. *)
Definition rr_Write `{Library} (buf : string) (rr : ResponseRecorder)
  : ResponseRecorder * option error :=
  let rr1 := rr_writeHeader buf rr in
  (mkRecorder (Code rr1) (HeaderMap rr1) (Body rr1 +:+ buf) true, None).

#[global] Instance recorder_writer `{Library} : ResponseWriter ResponseRecorder := {
  Header := HeaderMap;
  set_Header h rr := mkRecorder (Code rr) h (Body rr) (wroteHeader rr);
  WriteHeader := rr_WriteHeader;
  Write := rr_Write;
}.

(** A client connection that accepts a bounded number of writes and then
    fails (a peer that went away): the recorder of what was delivered
    and the number of writes still accepted.  A refused write delivers
    nothing. *)
Record LossyWriter : Type := mkLossy { delivered : ResponseRecorder; budget : nat }.

Definition lossy_Write `{Library} (buf : string) (w : LossyWriter)
  : LossyWriter * option error :=
  match budget w with
  | O => (w, Some (mkError "write: broken pipe"))
  | S n => (mkLossy (fst (rr_Write buf (delivered w))) n, None)
  end.

#[global] Instance lossy_writer `{Library} : ResponseWriter LossyWriter := {
  Header w := HeaderMap (delivered w);
  set_Header h w := mkLossy (set_Header h (delivered w)) (budget w);
  WriteHeader c w := mkLossy (rr_WriteHeader c (delivered w)) (budget w);
  Write := lossy_Write;
}.

(** Nodes of a parsed [text/template]: literal text and the action
    [{{ .IP }}]. *)
Inductive Node : Type :=
| TextNode (text : string)
| FieldIP.

End Http.

(** ** The server *)

Module Srv.
Import Net Go Const Http.

Record DHCPRecord : Type := mkDHCPRecord { rec_IP : IP; expires : Z }.

(** A buffered [chan error]: its capacity and the pending outcomes, oldest
    first; [None] is the nil error. *)
Record Chan : Type := mkChan { chan_cap : nat; chan_buf : list (option error) }.

(** [make(chan error, n)]. *)
Definition make_chan (n : nat) : Chan := mkChan n [].

(** The [Server] struct.  The two locks carry no data, and the handles of
    the started servers are only written by the loops. *)
Record Server : Type := mkServer {
  ServerRoot : string;
  IP_ : IP;
  GWIP : IP;
  Net_ : option IPNet;
  ForwardDns : list string;
  Intf : string;
  Controlplane : string;
  ProxyDHCP : bool;
  DHCPRecords : gmap string DHCPRecord;
  DHCPAllocator : option Allocator;
  DNSRecordsv4 : gmap string (list IP);
  DNSRecordsv6 : gmap string (list IP);
  DNSRRecords : gmap string (list string);
  DHCPPort : Z;
  TFTPPort : Z;
  PXEPort : Z;
  HTTPPort : Z;
  DNSPort : Z;
  errs : Chan;
}.

(** [NewServer]: empty record stores and an outcome channel of six slots,
    one for each goroutine plus one for [Shutdown]. *)
Definition NewServer (serverRoot interfaceName controlplane : string) : Server :=
  {| ServerRoot := serverRoot; IP_ := IPnil; GWIP := IPnil; Net_ := None;
     ForwardDns := []; Intf := interfaceName; Controlplane := controlplane;
     ProxyDHCP := false; DHCPRecords := ∅; DHCPAllocator := None;
     DNSRecordsv4 := ∅; DNSRecordsv6 := ∅; DNSRRecords := ∅;
     DHCPPort := 0; TFTPPort := 0; PXEPort := 0; HTTPPort := 0; DNSPort := 0;
     errs := make_chan 6 |}.

(** Field updates. *)
Definition set_IP (v : IP) (s : Server) : Server :=
  mkServer (ServerRoot s) v (GWIP s) (Net_ s) (ForwardDns s) (Intf s)
    (Controlplane s) (ProxyDHCP s) (DHCPRecords s) (DHCPAllocator s)
    (DNSRecordsv4 s) (DNSRecordsv6 s) (DNSRRecords s) (DHCPPort s)
    (TFTPPort s) (PXEPort s) (HTTPPort s) (DNSPort s) (errs s).

Definition set_GWIP (v : IP) (s : Server) : Server :=
  mkServer (ServerRoot s) (IP_ s) v (Net_ s) (ForwardDns s) (Intf s)
    (Controlplane s) (ProxyDHCP s) (DHCPRecords s) (DHCPAllocator s)
    (DNSRecordsv4 s) (DNSRecordsv6 s) (DNSRRecords s) (DHCPPort s)
    (TFTPPort s) (PXEPort s) (HTTPPort s) (DNSPort s) (errs s).

Definition set_Net (v : option IPNet) (s : Server) : Server :=
  mkServer (ServerRoot s) (IP_ s) (GWIP s) v (ForwardDns s) (Intf s)
    (Controlplane s) (ProxyDHCP s) (DHCPRecords s) (DHCPAllocator s)
    (DNSRecordsv4 s) (DNSRecordsv6 s) (DNSRRecords s) (DHCPPort s)
    (TFTPPort s) (PXEPort s) (HTTPPort s) (DNSPort s) (errs s).

Definition set_ForwardDns (v : list string) (s : Server) : Server :=
  mkServer (ServerRoot s) (IP_ s) (GWIP s) (Net_ s) v (Intf s)
    (Controlplane s) (ProxyDHCP s) (DHCPRecords s) (DHCPAllocator s)
    (DNSRecordsv4 s) (DNSRecordsv6 s) (DNSRRecords s) (DHCPPort s)
    (TFTPPort s) (PXEPort s) (HTTPPort s) (DNSPort s) (errs s).

Definition set_ProxyDHCP (v : bool) (s : Server) : Server :=
  mkServer (ServerRoot s) (IP_ s) (GWIP s) (Net_ s) (ForwardDns s) (Intf s)
    (Controlplane s) v (DHCPRecords s) (DHCPAllocator s)
    (DNSRecordsv4 s) (DNSRecordsv6 s) (DNSRRecords s) (DHCPPort s)
    (TFTPPort s) (PXEPort s) (HTTPPort s) (DNSPort s) (errs s).

Definition set_DHCPAllocator (v : option Allocator) (s : Server) : Server :=
  mkServer (ServerRoot s) (IP_ s) (GWIP s) (Net_ s) (ForwardDns s) (Intf s)
    (Controlplane s) (ProxyDHCP s) (DHCPRecords s) v
    (DNSRecordsv4 s) (DNSRecordsv6 s) (DNSRRecords s) (DHCPPort s)
    (TFTPPort s) (PXEPort s) (HTTPPort s) (DNSPort s) (errs s).

Definition set_DNSRecordsv4 (v : gmap string (list IP)) (s : Server) : Server :=
  mkServer (ServerRoot s) (IP_ s) (GWIP s) (Net_ s) (ForwardDns s) (Intf s)
    (Controlplane s) (ProxyDHCP s) (DHCPRecords s) (DHCPAllocator s)
    v (DNSRecordsv6 s) (DNSRRecords s) (DHCPPort s)
    (TFTPPort s) (PXEPort s) (HTTPPort s) (DNSPort s) (errs s).

Definition set_DNSRecordsv6 (v : gmap string (list IP)) (s : Server) : Server :=
  mkServer (ServerRoot s) (IP_ s) (GWIP s) (Net_ s) (ForwardDns s) (Intf s)
    (Controlplane s) (ProxyDHCP s) (DHCPRecords s) (DHCPAllocator s)
    (DNSRecordsv4 s) v (DNSRRecords s) (DHCPPort s)
    (TFTPPort s) (PXEPort s) (HTTPPort s) (DNSPort s) (errs s).

Definition set_ports (dhcp tftp pxe http dns : Z) (s : Server) : Server :=
  mkServer (ServerRoot s) (IP_ s) (GWIP s) (Net_ s) (ForwardDns s) (Intf s)
    (Controlplane s) (ProxyDHCP s) (DHCPRecords s) (DHCPAllocator s)
    (DNSRecordsv4 s) (DNSRecordsv6 s) (DNSRRecords s) dhcp tftp pxe http dns
    (errs s).

Definition set_errs (v : Chan) (s : Server) : Server :=
  mkServer (ServerRoot s) (IP_ s) (GWIP s) (Net_ s) (ForwardDns s) (Intf s)
    (Controlplane s) (ProxyDHCP s) (DHCPRecords s) (DHCPAllocator s)
    (DNSRecordsv4 s) (DNSRecordsv6 s) (DNSRRecords s) (DHCPPort s)
    (TFTPPort s) (PXEPort s) (HTTPPort s) (DNSPort s) v.

End Srv.

(** ** Boot dispatch filter *)

Module Dispatch.
Import Net Go Const Http Srv.

(** The parsed boot-menu template; the action [{{ .IP }}] occurs once in
    each of the three chain lines. *)
Definition ipxeMenuTemplate : list Node :=
[ TextNode "#!ipxe
isset ${proxydhcp/next-server} || goto start
set next-server ${proxydhcp/next-server}
set filename ${proxydhcp/filename}

:start
menu iPXE boot menu for Talos
item --gap                      Talos Nodes
item --key i init               Bootstrap Node
item --key c controlplane       Master Node
item --key w worker             Worker Node
item --gap                      Other
item --key s shell              iPXE Shell
item --key r reboot             Reboot
item --key e exit               Exit
choose --timeout 0 --default worker selected || goto cancel
set menu-timeout 0
goto ${selected}

:init
chain http://";
FieldIP;
TextNode ":8080/ipxe?uuid=${uuid}&ip=${ip}&mac=${mac:hexhyp}&domain=${domain}&hostname=${hostname}&serial=${serial}&type=init

:controlplane
chain http://";
FieldIP;
TextNode ":8080/ipxe?uuid=${uuid}&ip=${ip}&mac=${mac:hexhyp}&domain=${domain}&hostname=${hostname}&serial=${serial}&type=controlplane

:worker
chain http://";
FieldIP;
TextNode ":8080/ipxe?uuid=${uuid}&ip=${ip}&mac=${mac:hexhyp}&domain=${domain}&hostname=${hostname}&serial=${serial}&type=worker

:reboot
reboot

:shell
shell

:exit
exit
" ].

(** [Template.Execute]: the nodes are written to the writer in order, the
    field through [IP.String]; the first failed write aborts the
    execution and is returned. *)
Fixpoint Execute `{Library} {W : Type} `{ResponseWriter W}
  (t : list Node) (w : W) (s : Server) : W * option error :=
  match t with
  | [] => (w, None)
  | n :: t' =>
      let text := match n with
                  | TextNode x => x
                  | FieldIP => IP_String (IP_ s)
                  end in
      match Write text w with
      | (w', Some err) => (w', Some err)
      | (w', None) => Execute t' w' s
      end
  end.

(** The menu text for a server, as one string. *)
Definition render `{Library} (t : list Node) (s : Server) : string :=
  foldr (fun n acc =>
           match n with
           | TextNode x => x
           | FieldIP => IP_String (IP_ s)
           end +:+ acc) EmptyString t.

(** The bytes of the first write of an execution: the text of the first
    node of the template. *)
Definition first_write `{Library} (t : list Node) (s : Server) : string :=
  match t with
  | [] => EmptyString
  | TextNode x :: _ => x
  | FieldIP :: _ => IP_String (IP_ s)
  end.

(** Modelled from the spec: [registerDNSEntry] is called by the dispatch
    filter but its body is not part of the available sources.  Section
    4.5: [Register(name, ip)] is append-only per name; the address is
    appended to the sequence of the name in the mapping of its address
    family (the IPv4 mapping unless the address is IPv6), and nothing is
    deduplicated. *)
Definition registerDNSEntry (name : string) (ip : IP) (s : Server) : Server :=
  match ip with
  | IPv6 _ =>
      set_DNSRecordsv6
        (<[name := default [] (DNSRecordsv6 s !! name) ++ [ip]]> (DNSRecordsv6 s)) s
  | _ =>
      set_DNSRecordsv4
        (<[name := default [] (DNSRecordsv4 s !! name) ++ [ip]]> (DNSRecordsv4 s)) s
  end.

(** [Resolve(name)]: every address registered under the name. *)
Definition Resolve (name : string) (s : Server) : list IP :=
  default [] (DNSRecordsv4 s !! name) ++ default [] (DNSRecordsv6 s !! name).

(** The number of address registrations held by the DNS store. *)
Definition dns_registrations (s : Server) : nat :=
  map_fold (fun _ l n => (length l + n)%nat) 0%nat (DNSRecordsv4 s)
  + map_fold (fun _ l n => (length l + n)%nat) 0%nat (DNSRecordsv6 s).

(** What one call of the filter leaves behind: the client's writer, the
    server and the log lines written. *)
Record Outcome (W : Type) : Type :=
  mkOutcome { out_w : W; out_srv : Server; out_log : list LogEntry }.
Arguments mkOutcome {W} _ _ _.
Arguments out_w {W} _.
Arguments out_srv {W} _.
Arguments out_log {W} _.

(** The [range] loops that copy the captured header map into the
    client's header map, value by value. *)
Definition copy_headers `{Library} (from to : Values) : Values :=
  map_fold (fun key values h => foldl (fun h value => Header_Add key value h) h values)
    to from.

(** The same two loops when the [range] over the captured header map
    visits its entries in the given order; Go leaves that order open. *)
Definition copy_headers_in `{Library} (order : list (string * list string))
  (to : Values) : Values :=
  foldl (fun h entry =>
           foldl (fun h value => Header_Add entry.1 value h) h entry.2)
    to order.

Section Filter.
Context `{Library}.

(** The wrapped boot-asset handler ([primaryHandler.ServeHTTP]); it is
    called on the client's writer and on a recorder. *)
Variable primaryHandler : forall W : Type, ResponseWriter W -> W -> Request -> W.

(** The handler function built by [ipxeWrapperMenuHandler]. *)
Definition ipxeWrapperMenuHandler {W : Type} `{ResponseWriter W}
  (s : Server) (w : W) (req : Request) : Outcome W :=
  if negb (String.eqb (URL_Path req) "ipxe") && negb (String.eqb (URL_Path req) "/ipxe")
  then mkOutcome (primaryHandler W _ w req) s []
  else
    let rr := primaryHandler ResponseRecorder _ NewRecorder req in
    if negb (Code rr =? StatusOK) then
      match ParseForm req with
      | inl err =>
          mkOutcome w s [(ErrorLevel, "Error ParseForm: " +:+ error_msg err)]
      | inr form =>
          let machineType := Get form "type" in
          let remoteIp := ParseIP (Get form "ip") in
          let l1 := [(InfoLevel,
                      "Selecting " +:+ machineType +:+ " for " +:+ IP_String remoteIp)] in
          let s1 :=
            if String.eqb machineType "init" || String.eqb machineType "controlplane"
            then registerDNSEntry (Controlplane s) remoteIp s
            else s in
          let w1 := set_Header (copy_headers (HeaderMap rr) (Header w)) w in
          let w2 := WriteHeader (Code rr) w1 in
          match Write (Body rr) w2 with
          | (w3, Some err) =>
              mkOutcome w3 s1
                (l1 ++ [(ErrorLevel, "Error wrtiting body bytes " +:+ error_msg err)])
          | (w3, None) => mkOutcome w3 s1 l1
          end
      end
    else
      let l1 := [(InfoLevel, "Serving menu")] in
      match Execute ipxeMenuTemplate w s with
      | (w1, Some err) =>
          mkOutcome (WriteHeader StatusInternalServerError w1) s
            (l1 ++ [(ErrorLevel, error_msg err)])
      | (w1, None) => mkOutcome w1 s l1
      end.

End Filter.

(** The request is a boot request. *)
Definition boot_path (req : Request) : Prop :=
  URL_Path req = "ipxe" \/ URL_Path req = "/ipxe".

End Dispatch.

(** ** Listener supervisor *)

Module Supervisor.
Import Net Go Const Http Srv.

(** The five service loops started by [Serve]. *)
Inductive Loop : Type := PXE | TFTP | HTTP | DHCP | DNS.

#[global] Instance Loop_eq_dec : EqDecision Loop.
Proof. solve_decision. Defined.

Definition all_loops : list Loop := [PXE; TFTP; HTTP; DHCP; DNS].

(** A listening socket: the network and the address given to
    [net.Listen] or [net.ListenPacket]. *)
Record Socket : Type := mkSocket { sock_network : string; sock_address : string }.

#[global] Instance Socket_eq_dec : EqDecision Socket.
Proof. solve_decision. Defined.

(** What [Serve] does to the outside, in program order: sockets bound and
    closed, and loops started.  A started loop is recorded with the
    socket handed to it, if any, and with the server it runs on. *)
Inductive Event : Type :=
| Bound (c : Socket)
| Closed (c : Socket)
| Started (l : Loop) (conn : option Socket) (cfg : Server).

(** The buffer has no free slot. *)
Definition chan_full (c : Chan) : bool := (chan_cap c <=? length (chan_buf c))%nat.

(** [select { case c <- v: default: }]: enqueue when a slot is free,
    otherwise do nothing. *)
Definition try_send (v : option error) (c : Chan) : Chan :=
  if chan_full c then c else mkChan (chan_cap c) (chan_buf c ++ [v]).

(** [Shutdown]: a non-blocking send of nil on [s.errs]. *)
Definition Shutdown (s : Server) : Server := set_errs (try_send None (errs s)) s.

(** [Serve] up to the receive: port defaults and the forwarder default. *)
Definition Serve_defaults (s : Server) : Server :=
  let s1 :=
    set_ports (if DHCPPort s =? 0 then portDHCP else DHCPPort s)
              (if TFTPPort s =? 0 then portTFTP else TFTPPort s)
              (if PXEPort s =? 0 then portPXE else PXEPort s)
              (if HTTPPort s =? 0 then portHTTP else HTTPPort s)
              (if DNSPort s =? 0 then portDNS else DNSPort s) s in
  if (length (ForwardDns s1) =? 0)%nat then set_ForwardDns [forwardDns] s1 else s1.

Section Serve.
Context `{Library}.

(** The operating system's answer to a bind request, given the sockets
    this process already holds: [None] when the socket is bound. *)
Variable listen : list Socket -> Socket -> option error.

(** [fmt.Sprintf("%s:%d", s.IP, port)]. *)
Definition listen_addr (s : Server) (port : Z) : string :=
  IP_String (IP_ s) +:+ ":" +:+ pretty port.

(** [Serve] from its entry to the point where it blocks on [s.errs]: the
    updated server, the events so far and, when a bind failed, the error
    returned (the deferred closes have then run, last bound first). *)
Definition Serve_start (s0 : Server) : Server * list Event * option error :=
  let s := Serve_defaults s0 in
  let cTftp := mkSocket "udp" (listen_addr s (TFTPPort s)) in
  match listen [] cTftp with
  | Some err => (s, [], Some err)
  | None =>
  let cPxe := mkSocket "udp4" (listen_addr s (PXEPort s)) in
  match listen [cTftp] cPxe with
  | Some err => (s, [Bound cTftp; Closed cTftp], Some err)
  | None =>
  let cHttp := mkSocket "tcp" (listen_addr s (HTTPPort s)) in
  match listen [cPxe; cTftp] cHttp with
  | Some err => (s, [Bound cTftp; Bound cPxe; Closed cPxe; Closed cTftp], Some err)
  | None =>
  let cDns := mkSocket "udp" (listen_addr s (DNSPort s)) in
  match listen [cHttp; cPxe; cTftp] cDns with
  | Some err =>
      (s, [Bound cTftp; Bound cPxe; Bound cHttp;
           Closed cHttp; Closed cPxe; Closed cTftp], Some err)
  | None =>
      (s, [Bound cTftp; Bound cPxe; Bound cHttp; Bound cDns;
           Started PXE (Some cPxe) s; Started TFTP (Some cTftp) s;
           Started HTTP (Some cHttp) s; Started DHCP None s;
           Started DNS (Some cDns) s], None)
  end end end end.

End Serve.

(** What can happen while [Serve] is blocked on the channel: a loop
    returns and sends its outcome, some goroutine calls [Shutdown], or
    the receive of [Serve] is scheduled. *)
Inductive Action : Type :=
| LoopReturns (l : Loop) (r : option error)
| ShutdownCall
| ServeReceive.

(** The channel, the senders blocked on a full channel (oldest first) and
    the value [Serve] returned, if it has returned. *)
Record Sup : Type := mkSup {
  sup_errs : Chan;
  sup_blocked : list (Loop * option error);
  sup_result : option (option error);
}.

Definition step (st : Sup) (a : Action) : Sup :=
  match a with
  | LoopReturns l r =>
      if chan_full (sup_errs st)
      then mkSup (sup_errs st) (sup_blocked st ++ [(l, r)]) (sup_result st)
      else mkSup (mkChan (chan_cap (sup_errs st)) (chan_buf (sup_errs st) ++ [r]))
             (sup_blocked st) (sup_result st)
  | ShutdownCall =>
      mkSup (try_send None (sup_errs st)) (sup_blocked st) (sup_result st)
  | ServeReceive =>
      match sup_result st, chan_buf (sup_errs st) with
      | Some _, _ => st
      | None, [] => st
      | None, v :: q =>
          match sup_blocked st with
          | [] => mkSup (mkChan (chan_cap (sup_errs st)) q) [] (Some v)
          | (_, r) :: bl =>
              mkSup (mkChan (chan_cap (sup_errs st)) (q ++ [r])) bl (Some v)
          end
      end
  end.

(** [err = <-s.errs] under a schedule of the other goroutines. *)
Definition Serve_wait (s : Server) (sched : list Action) : Sup :=
  foldl step (mkSup (errs s) [] None) sched.

(** The outcomes sent by a schedule, in the order of the sends. *)
Definition sends (sched : list Action) : list (option error) :=
  omap (fun a => match a with
                 | LoopReturns _ r => Some r
                 | ShutdownCall => Some None
                 | ServeReceive => None
                 end) sched.

(** The loops that return in a schedule, and its number of shutdown
    requests. *)
Definition returned_loops (sched : list Action) : list Loop :=
  omap (fun a => match a with LoopReturns l _ => Some l | _ => None end) sched.

Definition shutdown_calls (sched : list Action) : nat :=
  length (omap (fun a => match a with ShutdownCall => Some tt | _ => None end) sched).

(** The loops started in a trace, each with the socket handed to it. *)
Definition started (tr : list Event) : list (Loop * option Socket) :=
  omap (fun e => match e with Started l c _ => Some (l, c) | _ => None end) tr.

(** The sockets bound in a trace. *)
Definition bound_sockets (tr : list Event) : list Socket :=
  omap (fun e => match e with Bound c => Some c | _ => None end) tr.

(** [Serve]: the start-up, then the receive on [s.errs] under a schedule
    of the other goroutines.  The result is [None] while [Serve] is still
    blocked; when it returns, the deferred closes run, last bound first. *)
Definition Serve `{Library} (listen : list Socket -> Socket -> option error)
  (s0 : Server) (sched : list Action)
  : Server * list Event * option (option error) :=
  match Serve_start listen s0 with
  | (s, tr, Some err) => (s, tr, Some (Some err))
  | (s, tr, None) =>
      let st := Serve_wait s sched in
      match sup_result st with
      | Some r =>
          (set_errs (sup_errs st) s, tr ++ map Closed (rev (bound_sockets tr)), Some r)
      | None => (set_errs (sup_errs st) s, tr, None)
      end
  end.

Fixpoint remove_first (c : Socket) (l : list Socket) : list Socket :=
  match l with
  | [] => []
  | x :: l' => if decide (x = c) then l' else x :: remove_first c l'
  end.

(** The sockets still held at the end of a trace. *)
Definition open_sockets (tr : list Event) : list Socket :=
  foldl (fun held e =>
           match e with
           | Bound c => c :: held
           | Closed c => remove_first c held
           | Started _ _ _ => held
           end) [] tr.

(** Every loop of the list was started on a socket bound earlier in the
    trace. *)
Definition all_prebound (tr : list Event) (loops : list Loop) : Prop :=
  forall l, l ∈ loops ->
    exists pre post c cfg,
      tr = pre ++ Started l (Some c) cfg :: post /\ Bound c ∈ pre.

End Supervisor.

(** ** Bootstrap mode selector *)

Module Bootstrap.
Import Net Go Const Http Srv Planner.

(** A [dhclient.Lease], as far as [main] reads it. *)
Record Lease : Type := mkLease {
  FixedAddress : IP;
  Netmask : Z;
  Router : list IP;
  DNS_ : list IP;
}.

(** [time.Second], in nanoseconds. *)
Definition Second : Z := 1000000000.

(** [runDhclient]: the select between the lease channel and the context
    that expires after ten seconds.  [bound] is the time after the start,
    in nanoseconds, at which the client's [OnBound] callback delivers a
    lease, if it ever does; when both channels are ready at the same
    instant the runtime picks one, which [pick_lease] records. *)
Definition runDhclient (bound : option (Z * Lease)) (pick_lease : bool)
  : option Lease * option error :=
  let timeout := 10 * Second in
  let expired := (None, Some (mkError "Could not get DHCP")) in
  match bound with
  | Some (t, lease) =>
      if t <? timeout then (Some lease, None)
      else if (t =? timeout) && pick_lease then (Some lease, None)
      else expired
  | None => expired
  end.

(** The calls on the network link ([tenus.Linker]). *)
Inductive LinkOp : Type :=
| SetLinkIp (ip : IP) (net_ip : IP) (mask : Z)
| SetLinkDefaultGw (gw : IP).

(** Their results: success, [syscall.EEXIST], or another error. *)
Inductive LinkResult : Type :=
| LinkOk
| LinkEEXIST
| LinkErr (e : error).

(** [err != nil && err != syscall.EEXIST]. *)
Definition fatal (r : LinkResult) : option error :=
  match r with
  | LinkErr e => Some e
  | _ => None
  end.

(** The command-line flags. *)
Record Flags : Type := mkFlags {
  root : string;
  ifName : string;
  ipAddr : string;
  gwAddr : string;
  dnsAddr : string;
  controlplane : string;
}.

(** The flag defaults of [main]. *)
Definition default_flags : Flags :=
  mkFlags "." "eth0" "192.168.123.1/24" EmptyString EmptyString defaultControlplane.

(** The state of [main] when it goes on, or the panic that ended it; both
    with the link calls made so far. *)
Inductive Boot : Type :=
| Ready (s : Server) (ops : list LinkOp)
| Panicked (msg : string) (ops : list LinkOp).

Section Main.
Context `{Library}.

(** The operating system's answer to a call on the link. *)
Variable link : LinkOp -> LinkResult.

(** The loop over [lease.Router]: the calls made, and the error that made
    [main] panic, if any. *)
Fixpoint add_gateways (routers : list IP) : list LinkOp * option error :=
  match routers with
  | [] => ([], None)
  | routerIp :: rest =>
      match fatal (link (SetLinkDefaultGw routerIp)) with
      | Some e => ([SetLinkDefaultGw routerIp], Some e)
      | None =>
          let '(ops, r) := add_gateways rest in
          (SetLinkDefaultGw routerIp :: ops, r)
      end
  end.

(** The loop over [lease.DNS]. *)
Definition add_forwarders (dns : list IP) (s : Server) : Server :=
  foldl (fun s d => set_ForwardDns (ForwardDns s ++ [IP_String d +:+ ":53"]) s) s dns.

(** The branch of [main] on the result of [runDhclient]. *)
Definition select_mode (flags : Flags) (server : Server)
  (lease : option Lease) : Boot :=
  match lease with
  | Some lease =>
      let op := SetLinkIp (FixedAddress lease) (FixedAddress lease) (Netmask lease) in
      match fatal (link op) with
      | Some e => Panicked (error_msg e) [op]
      | None =>
          match add_gateways (Router lease) with
          | (ops, Some e) => Panicked (error_msg e) (op :: ops)
          | (ops, None) =>
              let server := add_forwarders (DNS_ lease) server in
              let server := set_IP (FixedAddress lease) server in
              let server := set_ProxyDHCP true server in
              Ready server (op :: ops)
          end
      end
  | None =>
      match ParseCIDR (ipAddr flags) with
      | inl _ => Panicked "invalid memory address or nil pointer dereference" []
      | inr (netIp, netNet) =>
          match getAvailableRange netNet netIp with
          | inl InvalidPrefixError => Panicked "InvalidPrefixError" []
          | inr r =>
              let server := set_IP (IPv4 netIp) server in
              let server := set_Net (Some netNet) server in
              let server := set_ProxyDHCP false server in
              match NewIPv4Allocator (first r) (last r) with
              | inl e => Panicked (error_msg e) []
              | inr a =>
                  let server := set_DHCPAllocator (Some a) server in
                  let op := SetLinkIp (IPv4 netIp) (IPv4 (net_IP netNet)) (net_ones netNet) in
                  match fatal (link op) with
                  | Some e => Panicked (error_msg e) [op]
                  | None => Ready server [op]
                  end
              end
          end
      end
  end.

(** The gateway and DNS overrides that follow the branch. *)
Definition apply_overrides (flags : Flags) (server : Server) : Server :=
  let server :=
    if String.eqb (gwAddr flags) EmptyString then set_GWIP (IP_ server) server
    else set_GWIP (ParseIP (gwAddr flags)) server in
  if String.eqb (dnsAddr flags) EmptyString then server
  else set_ForwardDns [dnsAddr flags] server.

(** [main] from [NewServer] to the call of [Serve]. *)
Definition main_bootstrap (flags : Flags) (intf : string)
  (bound : option (Z * Lease)) (pick_lease : bool) : Boot :=
  let server := NewServer (root flags) intf (controlplane flags) in
  let '(lease, _) := runDhclient bound pick_lease in
  match select_mode flags server lease with
  | Ready server ops => Ready (apply_overrides flags server) ops
  | Panicked msg ops => Panicked msg ops
  end.

End Main.

End Bootstrap.

(** ** Concrete collaborators used to run the program on examples *)

Module Fixture.
Import Net Go Const Http Srv Planner Dispatch Supervisor Bootstrap.

(** A table-driven stand-in for the library: it knows the addresses and
    queries used in the examples below. *)
Definition testLib : Library := {|
  ParseIP x :=
    if String.eqb x "10.0.0.5" then IPv4 (quad 10 0 0 5) else IPnil;
  ParseCIDR x :=
    if String.eqb x "192.168.123.1/24" then inr (quad 192 168 123 1, net24)
    else inl (mkError "invalid CIDR address");
  String6 _ := "::";
  ParseForm req :=
    if String.eqb (URL_RawQuery req) "type=controlplane&ip=10.0.0.5"
    then inr (<["type" := ["controlplane"]]> (<["ip" := ["10.0.0.5"]]> ∅))
    else if String.eqb (URL_RawQuery req) "type=%zz"
         then inl (mkError "invalid URL escape")
         else inr ∅;
  CanonicalMIMEHeaderKey x := x;
  NewIPv4Allocator a b :=
    if b <? a then inl (mkError "no IPs in the given range to allocate")
    else inr (mkAllocator a b (replicate (Z.to_nat (b - a + 1)) false));
  DetectContentType _ := "text/plain; charset=utf-8";
|}.

(** The examples run on this library. *)
#[export] Existing Instance testLib | 100.

(** A wrapped handler that finds a profile: status 200 and a boot script. *)
Definition found_handler (W : Type) (RW : ResponseWriter W) (w : W) (req : Request) : W :=
  let w1 := set_Header (Header_Add (H := testLib) "Content-Type" "text/plain" (Header w)) w in
  fst (Write "#!ipxe kernel /assets/vmlinuz" (WriteHeader StatusOK w1)).

(** A wrapped handler that finds no profile: status 404. *)
Definition missing_handler (W : Type) (RW : ResponseWriter W) (w : W) (req : Request) : W :=
  let w1 := set_Header (Header_Add (H := testLib) "Content-Type" "text/plain" (Header w)) w in
  fst (Write "404 page not found" (WriteHeader StatusNotFound w1)).

(** A server in authoritative mode at 192.168.123.1. *)
Definition srv0 : Server :=
  set_IP (IPv4 (quad 192 168 123 1)) (NewServer "." "eth0" defaultControlplane).

Definition boot_req : Request := mkRequest "/ipxe" "type=controlplane&ip=10.0.0.5".
Definition bad_req : Request := mkRequest "/ipxe" "type=%zz".
Definition asset_req : Request := mkRequest "/assets/vmlinuz" EmptyString.

(** Every bind succeeds. *)
Definition listen_ok : list Socket -> Socket -> option error := fun _ _ => None.

(** Every call on the link succeeds. *)
Definition link_ok : LinkOp -> LinkResult := fun _ => LinkOk.

Definition lease0 : Lease :=
  mkLease (IPv4 (quad 10 0 0 7)) 24 [IPv4 (quad 10 0 0 1)] [IPv4 (quad 10 0 0 2)].

End Fixture.

(** ** Network interfaces ([getValidInterfaces], [getInterface]) *)

Module Ifaces.
Import Net Go.

(** [net.Flags] bits. *)
Definition FlagUp : Z := 1.
Definition FlagBroadcast : Z := 2.
Definition FlagLoopback : Z := 4.

(** A [net.Interface]. *)
Record Interface : Type := mkInterface {
  if_Index : Z;
  if_MTU : Z;
  if_Name : string;
  if_Flags : Z;
}.

(** A [net.IPMask], as its bytes; nil is the empty list. *)
Abbreviation IPMask := (list Z).

(** The dynamic types of a [net.Addr] that [getInterface] switches on:
    [*net.IPAddr], [*net.IPNet], anything else. *)
Inductive Addr : Type :=
| IPAddr (ip : IP)
| IPNetAddr (ip : IP) (mask : IPMask)
| OtherAddr.

(** [IP.Equal].  An IPv4 address stands for both of its byte forms, and
    [IPv6] for an address that is not an IPv4-mapped one, so two
    addresses are equal exactly when they are the same. *)
Definition Equal (ip x : IP) : bool := bool_decide (ip = x).

(** [IP.DefaultMask]: the class A, B or C mask of an IPv4 address by its
    first byte, nil for anything else. *)
Definition DefaultMask (ip : IP) : IPMask :=
  match ip with
  | IPv4 a =>
      if a / 2 ^ 24 <? 128 then [255; 0; 0; 0]
      else if a / 2 ^ 24 <? 192 then [255; 255; 0; 0]
      else [255; 255; 255; 0]
  | _ => []
  end.

(** The loop of [getValidInterfaces]: loopback interfaces and interfaces
    that are not up are skipped, the others appended. *)
Fixpoint valid_loop (ifaces : list Interface) (validInterfaces : list Interface)
  : list Interface :=
  match ifaces with
  | [] => validInterfaces
  | iface :: rest =>
      if negb (Z.land (if_Flags iface) FlagLoopback =? 0)
      then valid_loop rest validInterfaces
      else if Z.land (if_Flags iface) FlagUp =? 0
           then valid_loop rest validInterfaces
           else valid_loop rest (validInterfaces ++ [iface])
  end.

(** [getValidInterfaces], given the result of [net.Interfaces]. *)
Definition getValidInterfaces (interfaces : error + list Interface)
  : error + list Interface :=
  match interfaces with
  | inl err => inl err
  | inr ifaces =>
      let validInterfaces := valid_loop ifaces [] in
      if (length validInterfaces =? 0)%nat
      then inl (mkError "Could not find any non-loopback interfaces that are active")
      else inr validInterfaces
  end.

(** The inner loop of [getInterface] over the addresses of one
    interface: the mask of the first address equal to [addr]. *)
Fixpoint addr_loop (addr : IP) (ifaceAddrs : list Addr) : option IPMask :=
  match ifaceAddrs with
  | [] => None
  | IPAddr ip :: rest =>
      if Equal ip addr then Some (DefaultMask ip) else addr_loop addr rest
  | IPNetAddr ip mask :: rest =>
      if Equal ip addr then Some mask else addr_loop addr rest
  | OtherAddr :: rest => addr_loop addr rest
  end.

Section GetInterface.

(** [Interface.Addrs]: the addresses of an interface, or an error. *)
Variable Addrs : Interface -> error + list Addr.

(** The outer loop of [getInterface]. *)
Fixpoint iface_loop (addr : IP) (ifaces : list Interface)
  : error + (Interface * IPMask) :=
  match ifaces with
  | [] => inl (mkError "Could not find interface for address")
  | iface :: rest =>
      match Addrs iface with
      | inl err => inl err
      | inr ifaceAddrs =>
          match addr_loop addr ifaceAddrs with
          | Some mask => inr (iface, mask)
          | None => iface_loop addr rest
          end
      end
  end.

(** [getInterface], given the result of [net.Interfaces]. *)
Definition getInterface (interfaces : error + list Interface) (addr : IP)
  : error + (Interface * IPMask) :=
  match interfaces with
  | inl err => inl err
  | inr ifaces => iface_loop addr ifaces
  end.

End GetInterface.

(** The interface is up and is not a loopback interface, read off the
    bits of its flags. *)
Definition active_non_loopback (i : Interface) : bool :=
  Z.testbit (if_Flags i) 0 && negb (Z.testbit (if_Flags i) 2).

(** The interface was searched and none of its addresses is the given
    IP address. *)
Definition searched_in_vain (Addrs : Interface -> error + list Addr)
  (addr : IP) (i : Interface) : Prop :=
  exists ifaceAddrs,
    Addrs i = inr ifaceAddrs
    /\ forall a, In a ifaceAddrs ->
         match a with
         | IPAddr ip | IPNetAddr ip _ => ip <> addr
         | OtherAddr => True
         end.

(** An address of the list is the given IP address. *)
Definition has_addr (addr : IP) (a : Addr) : Prop :=
  match a with
  | IPAddr ip | IPNetAddr ip _ => ip = addr
  | OtherAddr => False
  end.

End Ifaces.

(** ** The entry point *)

Module Entry.
Import Net Go Const Http Srv Supervisor Bootstrap Ifaces.

(** How [main] ends: it returns, it panics, or it is still blocked in
    [Serve]. *)
Inductive Exit : Type :=
| Returned
| Panic (msg : string)
| Blocked.

(** The machine [main] runs on: the interfaces, the results of
    [tenus.NewLinkFrom] (the name of the interface behind the link) and of
    [SetLinkUp], the answers of the link and of the binds, the DHCP
    negotiation, and the schedule of the goroutines once [Serve] waits. *)
Record Host : Type := mkHost {
  host_interfaces : error + list Interface;
  host_NewLinkFrom : string -> error + string;
  host_SetLinkUp : option error;
  host_link : LinkOp -> LinkResult;
  host_listen : list Socket -> Socket -> option error;
  host_bound : option (Z * Lease);
  host_pick : bool;
  host_sched : list Action;
}.

(** [main]: how it ends, the calls made on the link, and what [Serve]
    did to the sockets and loops. *)
Definition main `{Library} (flags : Flags) (h : Host)
  : Exit * list LinkOp * list Event :=
  match getValidInterfaces (host_interfaces h) with
  | inl err => (Panic (error_msg err), [], [])
  | inr validInterfaces =>
  match host_NewLinkFrom h (ifName flags) with
  | inl err => (Panic (error_msg err), [], [])
  | inr name =>
  match host_SetLinkUp h with
  | Some err => (Panic (error_msg err), [], [])
  | None =>
  match main_bootstrap (host_link h) flags name (host_bound h) (host_pick h) with
  | Panicked msg ops => (Panic msg, ops, [])
  | Ready server ops =>
      match Serve (host_listen h) server (host_sched h) with
      | (_, tr, Some (Some err)) => (Panic (error_msg err), ops, tr)
      | (_, tr, Some None) => (Returned, ops, tr)
      | (_, tr, None) => (Blocked, ops, tr)
      end
  end end end end.

End Entry.

(** ** More concrete collaborators *)

Module Samples.
Import Net Go Const Http Srv Supervisor Bootstrap Ifaces Entry Fixture.

Definition lo : Interface := mkInterface 1 65536 "lo" 5.
Definition eth0 : Interface := mkInterface 2 1500 "eth0" 19.
Definition eth1 : Interface := mkInterface 3 1500 "eth1" 18.

(** The addresses of the sample interfaces; [eth1] cannot be queried. *)
Definition sample_Addrs (i : Interface) : error + list Addr :=
  if String.eqb (if_Name i) "lo" then inr [IPNetAddr (IPv4 (quad 127 0 0 1)) [255; 0; 0; 0]]
  else if String.eqb (if_Name i) "eth0"
       then inr [OtherAddr; IPNetAddr (IPv4 (quad 192 168 123 1)) [255; 255; 255; 0]]
       else inl (mkError "route ip+net: no such network interface").

(** A host without a DHCP server on its network, on which [Shutdown] is
    called while the loops run. *)
Definition host0 : Host :=
  mkHost (inr [lo; eth0; eth1]) (fun name => inr name) None link_ok listen_ok
    None false [ShutdownCall; ServeReceive].

(** A link on which the gateway 10.0.0.2 cannot be set. *)
Definition link_gw2_down (op : LinkOp) : LinkResult :=
  match op with
  | SetLinkDefaultGw (IPv4 a) =>
      if a =? quad 10 0 0 2 then LinkErr (mkError "network is unreachable")
      else LinkOk
  | _ => LinkOk
  end.

(** A link that reports every address as already assigned. *)
Definition link_eexist : LinkOp -> LinkResult := fun _ => LinkEEXIST.

End Samples.

(** ** Properties of the address range planner *)

Module PlannerFacts.
Import Net Planner.

Lemma planned_total (n : IPNet) (h : Z) :
  4 <= net_size n ->
  exists r, getAvailableRange n h = inr r.
Proof.
  intros Hsz. unfold getAvailableRange.
  destruct (Z.ltb_spec (net_size n) 4); [lia|]. eauto.
Qed.

(** Under the policy as modelled, a host address strictly inside the
    prefix lies inside the planned range: for 192.168.123.0/24 and the
    host address 192.168.123.100 the range is 192.168.123.1 -
    192.168.123.254. *)
Lemma planner_middle_host_in_range :
  Contains net24 (quad 192 168 123 100) = true
  /\ 4 <= net_size net24
  /\ getAvailableRange net24 (quad 192 168 123 100)
     = inr (mkRange (quad 192 168 123 1) (quad 192 168 123 254))
  /\ ~ plan_ok net24 (quad 192 168 123 100)
         (mkRange (quad 192 168 123 1) (quad 192 168 123 254)).
Proof.
  repeat split; try reflexivity; try (vm_compute; congruence).
  intros (_ & _ & _ & Hhost). vm_compute in Hhost. discriminate.
Qed.

(** Under the policy as modelled, for every prefix with at least 4
    addresses and every host address inside it, the range has
    [first <= last], excludes the network and the broadcast address, and
    its two endpoints differ from the host address; the whole range
    excludes the host address when the host address is one of the two
    lowest or two highest addresses of the prefix.  For 192.168.123.0/24
    and host 192.168.123.1 the range is 192.168.123.2 - 192.168.123.254. *)
Theorem planner_range_endpoints (n : IPNet) (h : Z) :
  4 <= net_size n ->
  Contains n h = true ->
  (exists r,
      getAvailableRange n h = inr r
      /\ first r <= last r
      /\ in_range r (network n) = false
      /\ in_range r (broadcast n) = false
      /\ first r <> h /\ last r <> h
      /\ (h <= network n + 1 \/ broadcast n - 1 <= h -> in_range r h = false))
  /\ getAvailableRange net24 (quad 192 168 123 1)
     = inr (mkRange (quad 192 168 123 2) (quad 192 168 123 254)).
Proof.
  intros Hsz Hin. split; [|reflexivity].
  unfold Contains in Hin. apply andb_prop in Hin as [Hlo Hhi].
  apply Z.leb_le in Hlo. apply Z.leb_le in Hhi.
  unfold getAvailableRange.
  destruct (Z.ltb_spec (net_size n) 4) as [|_]; [lia|].
  eexists; split; [reflexivity|]. unfold in_range, broadcast, network in *.
  cbn [first last].
  destruct (Z.eqb_spec (net_IP n + 1) h) as [E1|E1];
    destruct (Z.eqb_spec (net_IP n + net_size n - 1 - 1) h) as [E2|E2];
    repeat split; try lia;
    try (apply andb_false_iff; rewrite !Z.leb_gt; lia);
    intros; apply andb_false_iff; rewrite !Z.leb_gt; lia.
Qed.

Lemma planner_range_endpoints_witness :
  exists r,
    getAvailableRange net24 (quad 192 168 123 254) = inr r
    /\ first r = quad 192 168 123 1 /\ last r = quad 192 168 123 253.
Proof.
  destruct (planner_range_endpoints net24 (quad 192 168 123 254))
    as [(r & Hr & _) _].
  - vm_compute. congruence.
  - reflexivity.
  - exists r. split; [exact Hr|].
    vm_compute in Hr. injection Hr as <-. split; reflexivity.
Defined.

End PlannerFacts.

(** ** Properties of the boot dispatch filter *)

Module DispatchFacts.
Import Net Go Const Http Srv Dispatch Fixture.

Section Branches.
Context `{Library}.
Variable primaryHandler : forall W : Type, ResponseWriter W -> W -> Request -> W.
Context {W : Type} `{ResponseWriter W}.

Lemma boot_path_test (req : Request) :
  boot_path req ->
  negb (String.eqb (URL_Path req) "ipxe") && negb (String.eqb (URL_Path req) "/ipxe")
  = false.
Proof.
  intros [E|E]; rewrite E; reflexivity.
Qed.

(** What the code does on a boot request whose captured status is 200. *)
Lemma captured_ok_branch (s : Server) (w : W) (req : Request) :
  boot_path req ->
  Code (primaryHandler ResponseRecorder _ NewRecorder req) = StatusOK ->
  ipxeWrapperMenuHandler primaryHandler s w req
  = match Execute ipxeMenuTemplate w s with
    | (w1, Some err) =>
        mkOutcome (WriteHeader StatusInternalServerError w1) s
          [(InfoLevel, "Serving menu"); (ErrorLevel, error_msg err)]
    | (w1, None) => mkOutcome w1 s [(InfoLevel, "Serving menu")]
    end.
Proof.
  intros Hp Hc. unfold ipxeWrapperMenuHandler.
  rewrite (boot_path_test _ Hp), Hc, Z.eqb_refl. cbn [negb].
  destruct (Execute ipxeMenuTemplate w s) as [w1 [err|]]; reflexivity.
Qed.

(** What the code does on a boot request whose captured status is not
    200 and whose form does not parse. *)
Lemma captured_other_bad_form (s : Server) (w : W) (req : Request) (err : error) :
  boot_path req ->
  Code (primaryHandler ResponseRecorder _ NewRecorder req) <> StatusOK ->
  ParseForm req = inl err ->
  ipxeWrapperMenuHandler primaryHandler s w req
  = mkOutcome w s [(ErrorLevel, "Error ParseForm: " +:+ error_msg err)].
Proof.
  intros Hp Hc Hf. unfold ipxeWrapperMenuHandler.
  rewrite (boot_path_test _ Hp).
  apply Z.eqb_neq in Hc. rewrite Hc, Hf. reflexivity.
Qed.

(** What the code does on a boot request whose captured status is not
    200 and whose form parses: the server after the call. *)
Lemma captured_other_server (s : Server) (w : W) (req : Request) (form : Values) :
  boot_path req ->
  Code (primaryHandler ResponseRecorder _ NewRecorder req) <> StatusOK ->
  ParseForm req = inr form ->
  out_srv (ipxeWrapperMenuHandler primaryHandler s w req)
  = if String.eqb (Get form "type") "init" || String.eqb (Get form "type") "controlplane"
    then registerDNSEntry (Controlplane s) (ParseIP (Get form "ip")) s
    else s.
Proof.
  intros Hp Hc Hf. unfold ipxeWrapperMenuHandler.
  rewrite (boot_path_test _ Hp).
  apply Z.eqb_neq in Hc. rewrite Hc, Hf. cbn [negb].
  destruct (Write _ _) as [w3 [e|]]; reflexivity.
Qed.

End Branches.

End DispatchFacts.

Module DispatchClaims.
Import Net Go Const Http Srv Dispatch Fixture DispatchFacts.

(** C1 (the code at the failing input): the wrapped handler answers the
    boot request [/ipxe?type=controlplane&ip=10.0.0.5] with status 200 and
    a boot script, and the filter does not relay that response: the
    client receives the rendered boot menu, none of the captured headers,
    and the announced address is not registered under the control-plane
    name. *)
Theorem matched_profile_not_relayed :
  let captured := found_handler ResponseRecorder _ NewRecorder boot_req in
  let out := ipxeWrapperMenuHandler (H := testLib) found_handler srv0 NewRecorder boot_req in
  Code captured = StatusOK
  /\ Get (<["type" := ["controlplane"]]> (<["ip" := ["10.0.0.5"]]> ∅)) "type"
     = "controlplane"
  /\ ParseForm (Library := testLib) boot_req
     = inr (<["type" := ["controlplane"]]> (<["ip" := ["10.0.0.5"]]> ∅))
  /\ Body (out_w out) = render (H := testLib) ipxeMenuTemplate srv0
  /\ Body (out_w out) <> Body captured
  /\ HeaderMap (out_w out) <> HeaderMap captured
  /\ out_srv out = srv0
  /\ Resolve defaultControlplane (out_srv out) = []
  /\ dns_registrations (out_srv out) = 0%nat.
Proof.
  cbv zeta. repeat split; try (vm_compute; reflexivity);
    vm_compute; discriminate.
Qed.

(** C2 (the code at the failing input): the wrapped handler answers the
    boot request [/ipxe?type=controlplane&ip=10.0.0.5] with status 404, and
    the filter registers the announced address under the control-plane
    name and relays the captured 404 response; the client does not
    receive the boot menu and the status is not 200. *)
Theorem unmatched_request_relayed_and_registered :
  let captured := missing_handler ResponseRecorder _ NewRecorder boot_req in
  let out := ipxeWrapperMenuHandler (H := testLib) missing_handler srv0 NewRecorder boot_req in
  Code captured = StatusNotFound
  /\ Code (out_w out) = StatusNotFound
  /\ Code (out_w out) <> StatusOK
  /\ Body (out_w out) = "404 page not found"
  /\ Body (out_w out) <> render (H := testLib) ipxeMenuTemplate srv0
  /\ Resolve defaultControlplane srv0 = []
  /\ Resolve defaultControlplane (out_srv out) = [IPv4 (quad 10 0 0 5)]
  /\ dns_registrations (out_srv out) = 1%nat.
Proof.
  cbv zeta. repeat split; try (vm_compute; reflexivity);
    vm_compute; discriminate.
Qed.

(** C8: on a boot request, a form that does not parse makes the handler
    log the error and return with the client's writer untouched and the
    server unchanged; a template execution that fails makes the handler
    log the error and call [WriteHeader] with status 500 on the writer,
    again with the server unchanged.  In both cases the handler returns
    normally. *)
Theorem request_errors_are_local `{Library}
  (primaryHandler : forall W : Type, ResponseWriter W -> W -> Request -> W)
  {W : Type} `{ResponseWriter W} (s : Server) (w : W) (req : Request) :
  boot_path req ->
  (forall err,
      Code (primaryHandler ResponseRecorder _ NewRecorder req) <> StatusOK ->
      ParseForm req = inl err ->
      ipxeWrapperMenuHandler primaryHandler s w req
      = mkOutcome w s [(ErrorLevel, "Error ParseForm: " +:+ error_msg err)])
  /\ (forall w1 err,
      Code (primaryHandler ResponseRecorder _ NewRecorder req) = StatusOK ->
      Execute ipxeMenuTemplate w s = (w1, Some err) ->
      ipxeWrapperMenuHandler primaryHandler s w req
      = mkOutcome (WriteHeader StatusInternalServerError w1) s
          [(InfoLevel, "Serving menu"); (ErrorLevel, error_msg err)]).
Proof.
  intros Hp. split.
  - intros err Hc Hf. by apply captured_other_bad_form.
  - intros w1 err Hc He.
    rewrite (captured_ok_branch primaryHandler s w req Hp Hc), He. reflexivity.
Qed.

Lemma request_errors_are_local_witness :
  ipxeWrapperMenuHandler (H := testLib) missing_handler srv0 NewRecorder bad_req
  = mkOutcome NewRecorder srv0 [(ErrorLevel, "Error ParseForm: invalid URL escape")]
  /\ ipxeWrapperMenuHandler (H := testLib) found_handler srv0 (mkLossy NewRecorder 0) boot_req
     = mkOutcome (mkLossy (mkRecorder StatusInternalServerError ∅ EmptyString true) 0) srv0
         [(InfoLevel, "Serving menu"); (ErrorLevel, "write: broken pipe")].
Proof.
  split.
  - apply (proj1 (request_errors_are_local (H := testLib) missing_handler
                    srv0 NewRecorder bad_req (or_intror eq_refl))
             (mkError "invalid URL escape")).
    + vm_compute. discriminate.
    + reflexivity.
  - etrans.
    + apply (proj2 (request_errors_are_local (H := testLib) found_handler
                      srv0 (mkLossy NewRecorder 0) boot_req (or_intror eq_refl))
               (mkLossy NewRecorder 0) (mkError "write: broken pipe")).
      * reflexivity.
      * reflexivity.
    + reflexivity.
Defined.

(** C9: a request whose path is neither [ipxe] nor [/ipxe] is handed to
    the wrapped handler together with the client's own writer; the result
    is exactly what the wrapped handler wrote there, nothing is logged,
    and the server, with its DNS records, is unchanged. *)
Theorem other_paths_forwarded `{Library}
  (primaryHandler : forall W : Type, ResponseWriter W -> W -> Request -> W)
  {W : Type} `{ResponseWriter W} (s : Server) (w : W) (req : Request) :
  URL_Path req <> "ipxe" ->
  URL_Path req <> "/ipxe" ->
  let out := ipxeWrapperMenuHandler primaryHandler s w req in
  out = mkOutcome (primaryHandler W _ w req) s []
  /\ out_srv out = s
  /\ DNSRecordsv4 (out_srv out) = DNSRecordsv4 s
  /\ DNSRecordsv6 (out_srv out) = DNSRecordsv6 s
  /\ DNSRRecords (out_srv out) = DNSRRecords s.
Proof.
  intros H1 H2. cbv zeta. unfold ipxeWrapperMenuHandler.
  apply String.eqb_neq in H1. apply String.eqb_neq in H2.
  rewrite H1, H2. cbn [negb andb]. repeat split.
Qed.

Lemma other_paths_forwarded_witness :
  ipxeWrapperMenuHandler (H := testLib) missing_handler srv0 NewRecorder asset_req
  = mkOutcome (missing_handler ResponseRecorder _ NewRecorder asset_req) srv0 [].
Proof.
  apply (other_paths_forwarded (H := testLib) missing_handler srv0 NewRecorder asset_req).
  - vm_compute. discriminate.
  - vm_compute. discriminate.
Defined.

End DispatchClaims.

(** ** Properties of the listener supervisor *)

Module SupervisorFacts.
Import Net Go Const Http Srv Supervisor Fixture.

(** Membership in an explicit list, and its refutation. *)
Ltac in_list :=
  repeat (apply elem_of_cons; first [left; reflexivity | right]).

Ltac not_in_list H :=
  repeat (apply elem_of_cons in H as [H|H]; [discriminate|]);
  by apply elem_of_nil in H.

Lemma sends_snoc (sched : list Action) (a : Action) :
  sends (sched ++ [a])
  = sends sched ++ match a with
                   | LoopReturns _ r => [r]
                   | ShutdownCall => [None]
                   | ServeReceive => []
                   end.
Proof.
  unfold sends. rewrite omap_app. destruct a; reflexivity.
Qed.

Lemma sends_length (sched : list Action) :
  length (sends sched)
  = (length (returned_loops sched) + shutdown_calls sched)%nat.
Proof.
  unfold sends, returned_loops, shutdown_calls.
  induction sched as [|a sched IH]; [reflexivity|].
  destruct a; cbn; lia.
Qed.

(** At most five distinct loops exist. *)
Lemma distinct_loops_le (l : list Loop) : NoDup l -> (length l <= 5)%nat.
Proof.
  intros Hnd.
  assert (Hsub : l ⊆+ all_loops).
  { apply NoDup_submseteq; [done|]. intros x _. destruct x; unfold all_loops; in_list. }
  apply submseteq_length in Hsub. exact Hsub.
Qed.

Lemma try_send_free (v : option error) (c : Chan) :
  (length (chan_buf c) < chan_cap c)%nat ->
  try_send v c = mkChan (chan_cap c) (chan_buf c ++ [v]).
Proof.
  intros Hlt. unfold try_send, chan_full.
  destruct (Nat.leb_spec (chan_cap c) (length (chan_buf c))); [lia|reflexivity].
Qed.

Lemma try_send_full (v : option error) (c : Chan) :
  (chan_cap c <= length (chan_buf c))%nat -> try_send v c = c.
Proof.
  intros Hle. unfold try_send, chan_full.
  destruct (Nat.leb_spec (chan_cap c) (length (chan_buf c))); [reflexivity|lia].
Qed.

(** While no more outcomes are sent than the channel has slots, nobody
    blocks, and the outcomes sent are exactly the one [Serve] received
    followed by the pending ones. *)
Lemma run_invariant (cap : nat) (sched : list Action) :
  (length (sends sched) <= cap)%nat ->
  let st := foldl step (mkSup (mkChan cap []) [] None) sched in
  sup_blocked st = []
  /\ chan_cap (sup_errs st) = cap
  /\ match sup_result st with
     | None => chan_buf (sup_errs st) = sends sched
     | Some v => v :: chan_buf (sup_errs st) = sends sched
     end.
Proof.
  cbv zeta. induction sched as [|a sched IH] using rev_ind; [done|].
  rewrite sends_snoc, length_app, foldl_snoc. intros Hlen.
  destruct IH as (Hb & Hc & Hq); [lia|].
  set (st := foldl step _ sched) in *.
  assert (Hbuf : (length (chan_buf (sup_errs st)) <= length (sends sched))%nat).
  { destruct (sup_result st); rewrite <- Hq; cbn; lia. }
  destruct a as [l r| |]; cbn [step length] in *.
  - unfold chan_full.
    destruct (Nat.leb_spec (chan_cap (sup_errs st)) (length (chan_buf (sup_errs st))));
      [lia|]. cbn. split_and!; [done..|].
    destruct (sup_result st); rewrite <- Hq; reflexivity.
  - rewrite try_send_free by lia. cbn. split_and!; [done..|].
    destruct (sup_result st); rewrite <- Hq; reflexivity.
  - rewrite app_nil_r.
    destruct (sup_result st) as [v|] eqn:Hr.
    { cbn. rewrite Hr. done. }
    destruct (chan_buf (sup_errs st)) as [|v q] eqn:Hq'.
    { cbn. rewrite Hr, Hq'. done. }
    rewrite Hb. cbn. done.
Qed.

Lemma remove_first_head (c : Socket) (l : list Socket) :
  remove_first c (c :: l) = l.
Proof.
  cbn. by rewrite decide_True.
Qed.

Lemma Serve_defaults_errs (s : Server) : errs (Serve_defaults s) = errs s.
Proof.
  unfold Serve_defaults. by destruct (_ =? _)%nat.
Qed.

Lemma Serve_start_server `{Library}
  (listen : list Socket -> Socket -> option error) (s0 : Server) :
  (Serve_start listen s0).1.1 = Serve_defaults s0.
Proof.
  unfold Serve_start.
  destruct (listen [] _); [done|]. destruct (listen [_] _); [done|].
  destruct (listen [_; _] _); [done|]. by destruct (listen [_; _; _] _).
Qed.

(** When every bind succeeds, [Serve] returns what its receive yields. *)
Lemma Serve_result `{Library}
  (listen : list Socket -> Socket -> option error) (s0 : Server)
  (sched : list Action) :
  (Serve_start listen s0).2 = None ->
  (Serve listen s0 sched).2 = sup_result (Serve_wait (Serve_defaults s0) sched).
Proof.
  intros Hok. unfold Serve.
  pose proof (Serve_start_server listen s0) as Hs.
  destruct (Serve_start listen s0) as [[s tr] r]. cbn in Hok, Hs. subst r s.
  by destruct (sup_result _).
Qed.

(** Once [Serve] has returned, its result no longer changes. *)
Lemma result_stable (sched : list Action) (st : Sup) (v : option error) :
  sup_result st = Some v -> sup_result (foldl step st sched) = Some v.
Proof.
  revert st. induction sched as [|a sched IH]; intros st Hr; [done|].
  cbn [foldl]. apply IH. destruct a; cbn [step].
  - by destruct (chan_full _).
  - done.
  - by rewrite Hr.
Qed.

End SupervisorFacts.

Module SupervisorClaims.
Import Net Go Const Http Srv Supervisor Fixture SupervisorFacts.

(** C3: the outcome channel made by [NewServer] has six slots, the number
    of service loops plus one.  When [Serve] has started its loops on a
    server with that channel, then under every schedule in which each
    loop returns at most once and [Shutdown] is called at most once, no
    sender ever blocks; [Serve] returns what its receive yields, and when
    that receive is scheduled after at least one outcome was sent, it is
    the first outcome sent, whether or not the other loops have returned;
    the later outcomes stay queued. *)
Theorem serve_returns_first_outcome `{Library}
  (listen : list Socket -> Socket -> option error) (s0 : Server)
  (sched : list Action) :
  errs s0 = make_chan 6 ->
  (Serve_start listen s0).2 = None ->
  NoDup (returned_loops sched) ->
  (shutdown_calls sched <= 1)%nat ->
  let st := Serve_wait (Serve_defaults s0) sched in
  (forall serverRoot intf cp,
      errs (NewServer serverRoot intf cp) = make_chan (length all_loops + 1))
  /\ (Serve listen s0 sched).2 = sup_result st
  /\ sup_blocked st = []
  /\ (sup_result st = None -> chan_buf (sup_errs st) = sends sched)
  /\ (forall v, sup_result st = Some v ->
        sends sched = v :: chan_buf (sup_errs st))
  /\ (forall pre post v rest,
        sched = pre ++ ServeReceive :: post ->
        sends pre = v :: rest ->
        (Serve listen s0 sched).2 = Some v)
  /\ (forall l r,
        (Serve listen s0 [LoopReturns l r; ServeReceive]).2 = Some r).
Proof.
  intros He Hok Hnd Hsh. cbv zeta.
  rewrite !Serve_result by done. unfold Serve_wait.
  rewrite Serve_defaults_errs, He. unfold make_chan.
  assert (Hlen : (length (sends sched) <= 6)%nat).
  { rewrite sends_length. apply distinct_loops_le in Hnd. lia. }
  destruct (run_invariant 6 sched Hlen) as (Hb & _ & Hq).
  split_and!.
  - reflexivity.
  - reflexivity.
  - exact Hb.
  - intros Hr. by rewrite Hr in Hq.
  - intros v Hr. by rewrite Hr in Hq.
  - intros pre post v rest -> Hpre.
    assert (Hlen' : (length (sends pre) <= 6)%nat).
    { unfold sends in *. rewrite omap_app, length_app in Hlen. lia. }
    destruct (run_invariant 6 pre Hlen') as (Hb' & _ & Hq').
    rewrite foldl_app. cbn [foldl]. apply result_stable.
    set (st := foldl step _ pre) in *. cbn [step].
    destruct (sup_result st) as [v'|] eqn:Hr.
    + rewrite Hr. congruence.
    + rewrite Hpre in Hq'. rewrite Hq', Hb'. reflexivity.
  - intros l r. rewrite Serve_result by done. unfold Serve_wait.
    rewrite Serve_defaults_errs, He. reflexivity.
Qed.

Lemma serve_returns_first_outcome_witness :
  (Serve (H := testLib) listen_ok srv0
     [LoopReturns DNS (Some (mkError "bind: address in use"));
      LoopReturns TFTP None; ShutdownCall; ServeReceive;
      LoopReturns PXE None; LoopReturns HTTP None; LoopReturns DHCP None]).2
  = Some (Some (mkError "bind: address in use")).
Proof.
  refine (proj1 (proj2 (proj2 (proj2 (proj2 (proj2
            (serve_returns_first_outcome (H := testLib) listen_ok srv0 _
               eq_refl eq_refl _ _))))))
            [LoopReturns DNS (Some (mkError "bind: address in use"));
             LoopReturns TFTP None; ShutdownCall]
            _ (Some (mkError "bind: address in use")) _ eq_refl eq_refl).
  - apply (bool_decide_unpack _). vm_compute. exact I.
  - vm_compute. lia.
Defined.

(** C4 (as stated, refuted): with an outcome already pending in the
    channel, a call to [Shutdown] is not without effect: it enqueues a nil
    behind the pending outcome and so changes the server; the same
    happens after [Serve] has already received an outcome. *)
Lemma shutdown_after_outcome_changes_state :
  let s := set_errs (mkChan 6 [Some (mkError "tftp: closed")]) srv0 in
  Shutdown s <> s
  /\ chan_buf (errs (Shutdown s)) = [Some (mkError "tftp: closed"); None]
  /\ sup_result (Serve_wait srv0
                   [LoopReturns TFTP (Some (mkError "tftp: closed")); ServeReceive])
     = Some (Some (mkError "tftp: closed"))
  /\ chan_buf (sup_errs (Serve_wait srv0
                   [LoopReturns TFTP (Some (mkError "tftp: closed")); ServeReceive]))
     = []
  /\ chan_buf (sup_errs (Serve_wait srv0
                   [LoopReturns TFTP (Some (mkError "tftp: closed")); ServeReceive;
                    ShutdownCall]))
     = [None].
Proof.
  cbv zeta. split_and!; try reflexivity.
  intros Heq. apply (f_equal (fun x => length (chan_buf (errs x)))) in Heq.
  vm_compute in Heq. discriminate.
Qed.

(** C4 (amended): a call to [Shutdown] enqueues a nil outcome whenever the
    channel has a free slot, whether or not outcomes are already pending,
    and changes nothing when the channel is full; it leaves every other
    field of the server alone and keeps the pending outcomes in place, so
    after any number of [Shutdown] calls [Serve] still returns the
    outcome that was enqueued first. *)
Theorem shutdown_enqueues_when_room (s : Server) :
  ((length (chan_buf (errs s)) < chan_cap (errs s))%nat ->
     errs (Shutdown s) = mkChan (chan_cap (errs s)) (chan_buf (errs s) ++ [None]))
  /\ ((chan_cap (errs s) <= length (chan_buf (errs s)))%nat -> Shutdown s = s)
  /\ set_errs (errs s) (Shutdown s) = s
  /\ (forall n v q,
        chan_buf (errs s) = v :: q ->
        (exists q', chan_buf (errs (Nat.iter n Shutdown s)) = v :: q')
        /\ sup_result (Serve_wait s (repeat ShutdownCall n ++ [ServeReceive]))
           = Some v).
Proof.
  split_and!.
  - intros Hlt. unfold Shutdown. destruct s. cbn in *. by apply try_send_free.
  - intros Hle. unfold Shutdown. rewrite try_send_full by done. by destruct s.
  - by destruct s.
  - intros n v q Hq. split.
    + induction n as [|n [q' IH]]; [by exists q|].
      rewrite Nat.iter_succ. generalize dependent (Nat.iter n Shutdown s).
      intros s' IH. unfold Shutdown, try_send.
      change (errs (set_errs ?c s')) with c.
      destruct (chan_full (errs s')).
      * by exists q'.
      * exists (q' ++ [None]). cbn. by rewrite IH.
    + unfold Serve_wait. rewrite foldl_app. cbn [foldl].
      assert (Hinv : exists q', sup_result (foldl step (mkSup (errs s) [] None)
                                    (repeat ShutdownCall n)) = None
                   /\ chan_buf (sup_errs (foldl step (mkSup (errs s) [] None)
                                    (repeat ShutdownCall n))) = v :: q'
                   /\ sup_blocked (foldl step (mkSup (errs s) [] None)
                                    (repeat ShutdownCall n)) = []).
      { induction n as [|n (q' & Hr & Hb & Hbl)]; [by exists q|].
        replace (S n) with (n + 1)%nat by lia.
        rewrite repeat_app, foldl_app. cbn [repeat foldl step].
        set (st := foldl step _ (repeat ShutdownCall n)) in *.
        unfold try_send. destruct (chan_full (sup_errs st)); cbn.
        - by exists q'.
        - exists (q' ++ [None]). by rewrite Hb. }
      destruct Hinv as (q' & Hr & Hb & Hbl).
      cbn [step]. by rewrite Hr, Hb, Hbl.
Qed.

Lemma shutdown_enqueues_when_room_witness :
  errs (Shutdown srv0) = mkChan 6 [None]
  /\ sup_result
       (Serve_wait (set_errs (mkChan 6 [Some (mkError "tftp: closed")]) srv0)
          (repeat ShutdownCall 9 ++ [ServeReceive]))
     = Some (Some (mkError "tftp: closed")).
Proof.
  split.
  - apply (proj1 (shutdown_enqueues_when_room srv0)). vm_compute. lia.
  - apply (proj2 (proj2 (proj2 (proj2 (shutdown_enqueues_when_room
             (set_errs (mkChan 6 [Some (mkError "tftp: closed")]) srv0))))
             9%nat (Some (mkError "tftp: closed")) [] eq_refl)).
Defined.

(** C5 (as stated, refuted): when every bind succeeds, [Serve] binds four
    sockets and starts five loops; the DHCP loop is started without a
    socket, so not every loop is started on a socket bound beforehand. *)
Lemma dhcp_loop_started_unbound :
  let tr := (Serve_start (H := testLib) listen_ok srv0).1.2 in
  (Serve_start (H := testLib) listen_ok srv0).2 = None
  /\ length (bound_sockets tr) = 4%nat
  /\ started tr
     = [(PXE, Some (mkSocket "udp4" "192.168.123.1:4011"));
        (TFTP, Some (mkSocket "udp" "192.168.123.1:69"));
        (HTTP, Some (mkSocket "tcp" "192.168.123.1:8080"));
        (DHCP, None);
        (DNS, Some (mkSocket "udp" "192.168.123.1:53"))]
  /\ ~ all_prebound tr all_loops.
Proof.
  cbv zeta. split_and!; try reflexivity.
  intros Hall.
  destruct (Hall DHCP) as (pre & post & c & cfg & Htr & _);
    [unfold all_loops; in_list|].
  assert (Hin : (DHCP, Some c)
                ∈ started (Serve_start (H := testLib) listen_ok srv0).1.2).
  { rewrite Htr. unfold started. rewrite omap_app. cbn.
    apply elem_of_app. right. in_list. }
  vm_compute in Hin. not_in_list Hin.
Qed.

(** C5 (amended): [Serve] binds the TFTP, PXE, HTTP and DNS sockets, in
    that order, before it starts any loop, and starts those four loops on
    the sockets bound; the DHCP loop is started without a socket.  If one
    of the four binds fails, [Serve] returns the error of that bind, has
    started no loop, and has closed every socket it had bound. *)
Theorem serve_binds_four_before_loops `{Library}
  (listen : list Socket -> Socket -> option error) (s0 : Server) :
  let s := Serve_defaults s0 in
  let cTftp := mkSocket "udp" (listen_addr s (TFTPPort s)) in
  let cPxe := mkSocket "udp4" (listen_addr s (PXEPort s)) in
  let cHttp := mkSocket "tcp" (listen_addr s (HTTPPort s)) in
  let cDns := mkSocket "udp" (listen_addr s (DNSPort s)) in
  let tr := (Serve_start listen s0).1.2 in
  match (Serve_start listen s0).2 with
  | None =>
      tr = [Bound cTftp; Bound cPxe; Bound cHttp; Bound cDns;
            Started PXE (Some cPxe) s; Started TFTP (Some cTftp) s;
            Started HTTP (Some cHttp) s; Started DHCP None s;
            Started DNS (Some cDns) s]
      /\ all_prebound tr [PXE; TFTP; HTTP; DNS]
      /\ listen [] cTftp = None /\ listen [cTftp] cPxe = None
      /\ listen [cPxe; cTftp] cHttp = None
      /\ listen [cHttp; cPxe; cTftp] cDns = None
  | Some err =>
      started tr = []
      /\ open_sockets tr = []
      /\ (listen [] cTftp = Some err
          \/ listen [cTftp] cPxe = Some err
          \/ listen [cPxe; cTftp] cHttp = Some err
          \/ listen [cHttp; cPxe; cTftp] cDns = Some err)
  end.
Proof.
  cbv zeta. unfold Serve_start.
  set (s := Serve_defaults s0).
  destruct (listen [] _) as [e1|] eqn:E1; [cbn; auto|].
  destruct (listen [_] _) as [e2|] eqn:E2.
  { cbn -[remove_first]. rewrite !remove_first_head. naive_solver. }
  destruct (listen [_; _] _) as [e3|] eqn:E3.
  { cbn -[remove_first]. rewrite !remove_first_head. naive_solver. }
  destruct (listen [_; _; _] _) as [e4|] eqn:E4.
  { cbn -[remove_first]. rewrite !remove_first_head. naive_solver. }
  cbn. split_and!; try done.
  intros l Hl.
  repeat (apply elem_of_cons in Hl as [->|Hl]); [..|by apply elem_of_nil in Hl].
  - eexists [_; _; _; _], _, _, _. split; [reflexivity|in_list].
  - eexists [_; _; _; _; _], _, _, _. split; [reflexivity|in_list].
  - eexists [_; _; _; _; _; _], _, _, _. split; [reflexivity|in_list].
  - eexists [_; _; _; _; _; _; _; _], _, _, _. split; [reflexivity|in_list].
Qed.

(** C10: when the forwarder list is empty at the entry of [Serve], the
    list is exactly the single forwarder [1.1.1.1:53] in the server that
    [Serve] goes on with, whatever the binds do, and every loop is
    started on a server with that list. *)
Theorem empty_forwarders_get_default `{Library}
  (listen : list Socket -> Socket -> option error) (s0 : Server) :
  ForwardDns s0 = [] ->
  ForwardDns (Serve_defaults s0) = ["1.1.1.1:53"]
  /\ ForwardDns (Serve_start listen s0).1.1 = ["1.1.1.1:53"]
  /\ (forall l c cfg,
        Started l c cfg ∈ (Serve_start listen s0).1.2 ->
        ForwardDns cfg = ["1.1.1.1:53"]).
Proof.
  intros He.
  assert (Hd : ForwardDns (Serve_defaults s0) = ["1.1.1.1:53"]).
  { unfold Serve_defaults. cbn [set_ports ForwardDns]. rewrite He. reflexivity. }
  split; [exact Hd|]. unfold Serve_start.
  set (s := Serve_defaults s0) in *.
  destruct (listen [] _) as [e1|]; [cbn; split; [done|intros l c cfg Hin; not_in_list Hin]|].
  destruct (listen [_] _) as [e2|]; [cbn; split; [done|intros l c cfg Hin; not_in_list Hin]|].
  destruct (listen [_; _] _) as [e3|]; [cbn; split; [done|intros l c cfg Hin; not_in_list Hin]|].
  destruct (listen [_; _; _] _) as [e4|]; [cbn; split; [done|intros l c cfg Hin; not_in_list Hin]|].
  cbn. split; [done|]. intros l c cfg Hin.
  repeat (apply elem_of_cons in Hin as [Hin|Hin]; [try discriminate|]);
    try (by apply elem_of_nil in Hin); by injection Hin as _ _ <-.
Qed.

Lemma empty_forwarders_get_default_witness :
  ForwardDns (Serve_start (H := testLib) listen_ok srv0).1.1 = ["1.1.1.1:53"].
Proof.
  apply (empty_forwarders_get_default (H := testLib) listen_ok srv0).
  reflexivity.
Defined.

End SupervisorClaims.

(** ** Properties of the bootstrap mode selector *)

Module BootstrapFacts.
Import Net Go Const Http Srv Planner Bootstrap Fixture.

Section Link.
Context `{Library}.
Variable link : LinkOp -> LinkResult.

Lemma add_gateways_ok (routers : list IP) :
  (forall op, fatal (link op) = None) ->
  add_gateways link routers = (map SetLinkDefaultGw routers, None).
Proof.
  intros Hok. induction routers as [|r rest IH]; [reflexivity|].
  cbn [add_gateways map]. by rewrite Hok, IH.
Qed.

Lemma add_forwarders_ForwardDns (dns : list IP) (s : Server) :
  ForwardDns (add_forwarders dns s)
  = ForwardDns s ++ map (fun d => IP_String d +:+ ":53") dns.
Proof.
  unfold add_forwarders. revert s.
  induction dns as [|d dns IH]; intros s; cbn [foldl map].
  - by rewrite app_nil_r.
  - rewrite IH. cbn [set_ForwardDns ForwardDns]. by rewrite <- app_assoc.
Qed.

Lemma add_forwarders_frame (dns : list IP) (s : Server) :
  DHCPAllocator (add_forwarders dns s) = DHCPAllocator s
  /\ Net_ (add_forwarders dns s) = Net_ s
  /\ errs (add_forwarders dns s) = errs s.
Proof.
  unfold add_forwarders. revert s.
  induction dns as [|d dns IH]; intros s; cbn [foldl]; [done|].
  destruct (IH (set_ForwardDns (ForwardDns s ++ [IP_String d +:+ ":53"]) s))
    as (-> & -> & ->). done.
Qed.

Lemma apply_overrides_frame (flags : Flags) (s : Server) :
  ProxyDHCP (apply_overrides flags s) = ProxyDHCP s
  /\ IP_ (apply_overrides flags s) = IP_ s
  /\ Net_ (apply_overrides flags s) = Net_ s
  /\ DHCPAllocator (apply_overrides flags s) = DHCPAllocator s
  /\ (dnsAddr flags = EmptyString -> ForwardDns (apply_overrides flags s) = ForwardDns s).
Proof.
  unfold apply_overrides.
  destruct (String.eqb (gwAddr flags) EmptyString), (String.eqb (dnsAddr flags) EmptyString) eqn:E;
    cbn; split_and!; try done;
    intros E'; rewrite E' in E; discriminate.
Qed.

End Link.

End BootstrapFacts.

Module BootstrapClaims.
Import Net Go Const Http Srv Planner Bootstrap Fixture BootstrapFacts.

(** C7: provided no call on the link fails fatally, [main] reaches
    [Serve] in one of two modes.  When the negotiation delivers a lease
    before the ten seconds are over, the proxy flag is set, the server
    address is the leased address, the leased DNS servers are the
    forwarders (unless the DNS override flag replaces them), no allocator
    is built, and the leased address and gateways are applied to the
    link.  When the negotiation delivers nothing before the timeout, and
    the static prefix parses, the range is planned and the allocator is
    constructed, the proxy flag is clear, the server address and network
    are those of the static prefix, the allocator is the bitmap allocator
    built for exactly the planned range, and the static address is
    applied to the link. *)
Theorem bootstrap_modes `{Library} (link : LinkOp -> LinkResult)
  (flags : Flags) (intf : string) :
  (forall op, fatal (link op) = None) ->
  (forall t lease pick,
      t < 10 * Second ->
      exists s,
        main_bootstrap link flags intf (Some (t, lease)) pick
        = Ready s (SetLinkIp (FixedAddress lease) (FixedAddress lease) (Netmask lease)
                     :: map SetLinkDefaultGw (Router lease))
        /\ ProxyDHCP s = true
        /\ IP_ s = FixedAddress lease
        /\ (dnsAddr flags = EmptyString ->
            ForwardDns s = map (fun d => IP_String d +:+ ":53") (DNS_ lease))
        /\ DHCPAllocator s = None)
  /\ (forall bound pick netIp netNet r a,
      (bound = None \/ exists t lease, bound = Some (t, lease) /\ 10 * Second < t) ->
      ParseCIDR (ipAddr flags) = inr (netIp, netNet) ->
      getAvailableRange netNet netIp = inr r ->
      NewIPv4Allocator (first r) (last r) = inr a ->
      exists s,
        main_bootstrap link flags intf bound pick
        = Ready s [SetLinkIp (IPv4 netIp) (IPv4 (net_IP netNet)) (net_ones netNet)]
        /\ ProxyDHCP s = false
        /\ IP_ s = IPv4 netIp
        /\ Net_ s = Some netNet
        /\ DHCPAllocator s = Some a).
Proof.
  intros Hok. split.
  - intros t lease pick Ht. unfold main_bootstrap, runDhclient.
    destruct (Z.ltb_spec t (10 * Second)) as [_|]; [|lia].
    cbn [select_mode]. rewrite Hok, add_gateways_ok by done.
    eexists. split; [reflexivity|].
    destruct (apply_overrides_frame flags
                (set_ProxyDHCP true (set_IP (FixedAddress lease)
                   (add_forwarders (DNS_ lease)
                      (NewServer (root flags) intf (controlplane flags))))))
      as (-> & -> & _ & -> & Hf).
    split_and!; try reflexivity.
    + intros Hd. rewrite (Hf Hd). cbn [set_ProxyDHCP set_IP ForwardDns].
      by rewrite add_forwarders_ForwardDns.
    + cbn [set_ProxyDHCP set_IP DHCPAllocator].
      by destruct (add_forwarders_frame (DNS_ lease)
                     (NewServer (root flags) intf (controlplane flags))) as (-> & _).
  - intros bound pick netIp netNet r a Hb Hcidr Hr Ha.
    assert (Hlease : (runDhclient bound pick).1 = None).
    { unfold runDhclient. destruct Hb as [->|(t & lease & -> & Ht)]; [done|].
      destruct (Z.ltb_spec t (10 * Second)); [lia|].
      destruct (Z.eqb_spec t (10 * Second)); [lia|]. done. }
    unfold main_bootstrap. destruct (runDhclient bound pick) as [l e].
    cbn [fst] in Hlease. subst l.
    cbn [select_mode]. rewrite Hcidr, Hr, Ha, Hok.
    eexists. split; [reflexivity|].
    destruct (apply_overrides_frame flags
                (set_DHCPAllocator (Some a) (set_ProxyDHCP false
                   (set_Net (Some netNet) (set_IP (IPv4 netIp)
                      (NewServer (root flags) intf (controlplane flags)))))))
      as (-> & -> & -> & -> & _).
    done.
Qed.

Lemma bootstrap_modes_witness :
  (exists s,
      main_bootstrap (H := testLib) link_ok default_flags "eth0"
        (Some (3 * Second, lease0)) false
      = Ready s [SetLinkIp (IPv4 (quad 10 0 0 7)) (IPv4 (quad 10 0 0 7)) 24;
                 SetLinkDefaultGw (IPv4 (quad 10 0 0 1))]
      /\ ProxyDHCP s = true
      /\ ForwardDns s = ["10.0.0.2:53"]
      /\ DHCPAllocator s = None)
  /\ (exists s,
      main_bootstrap (H := testLib) link_ok default_flags "eth0" None false
      = Ready s [SetLinkIp (IPv4 (quad 192 168 123 1)) (IPv4 (quad 192 168 123 0)) 24]
      /\ ProxyDHCP s = false
      /\ IP_ s = IPv4 (quad 192 168 123 1)
      /\ DHCPAllocator s
         = Some (mkAllocator (quad 192 168 123 2) (quad 192 168 123 254)
                   (replicate 253 false))).
Proof.
  pose proof (bootstrap_modes (H := testLib) link_ok default_flags "eth0"
                (fun _ => eq_refl)) as [Hproxy Hauth].
  split.
  - destruct (Hproxy (3 * Second) lease0 false) as (s & Hs & Hp & _ & Hf & Ha).
    + vm_compute. reflexivity.
    + exists s. split_and!; try done. by rewrite Hf.
  - destruct (Hauth None false (quad 192 168 123 1) net24
                (mkRange (quad 192 168 123 2) (quad 192 168 123 254))
                (mkAllocator (quad 192 168 123 2) (quad 192 168 123 254)
                   (replicate 253 false)))
      as (s & Hs & Hp & Hi & _ & Ha).
    + by left.
    + reflexivity.
    + reflexivity.
    + reflexivity.
    + exists s. split_and!; done.
Defined.

End BootstrapClaims.

(** ** Properties of the interface lookups *)

Module IfacesFacts.
Import Net Go Ifaces Samples.

Lemma land_pow2 (f n : Z) :
  0 <= n -> Z.land f (2 ^ n) = if Z.testbit f n then 2 ^ n else 0.
Proof.
  intros Hn. apply Z.bits_inj'. intros m Hm.
  rewrite Z.land_spec, Z.pow2_bits_eqb by done.
  destruct (Z.eqb_spec n m) as [->|Hne].
  - destruct (Z.testbit f m) eqn:E; cbn.
    + by rewrite Z.pow2_bits_true.
    + by rewrite Z.bits_0.
  - rewrite andb_false_r. destruct (Z.testbit f n).
    + by rewrite Z.pow2_bits_false.
    + by rewrite Z.bits_0.
Qed.

Lemma flag_test (f n : Z) :
  0 <= n -> (Z.land f (2 ^ n) =? 0) = negb (Z.testbit f n).
Proof.
  intros Hn. rewrite land_pow2 by done.
  destruct (Z.testbit f n); cbn; [|done].
  apply Z.eqb_neq. apply Z.pow_nonzero; lia.
Qed.

Lemma valid_loop_filter (ifaces acc : list Interface) :
  valid_loop ifaces acc = acc ++ List.filter active_non_loopback ifaces.
Proof.
  revert acc. induction ifaces as [|i rest IH]; intros acc; cbn [valid_loop List.filter].
  - by rewrite app_nil_r.
  - unfold active_non_loopback at 1.
    change FlagLoopback with (2 ^ 2). change FlagUp with (2 ^ 0).
    rewrite !flag_test by lia.
    destruct (Z.testbit (if_Flags i) 2), (Z.testbit (if_Flags i) 0); cbn;
      rewrite IH; try done. by rewrite <- app_assoc.
Qed.

(** X1: when [getValidInterfaces] succeeds, its result is the list of the
    interfaces that have the up bit set and the loopback bit clear, in
    the order [net.Interfaces] gave them, and it is not empty. *)
Theorem valid_interfaces_are_the_active_ones
  (ifaces l : list Interface) :
  getValidInterfaces (inr ifaces) = inr l ->
  l = List.filter active_non_loopback ifaces
  /\ l <> []
  /\ (forall i, In i l <->
        In i ifaces /\ Z.testbit (if_Flags i) 0 = true
        /\ Z.testbit (if_Flags i) 2 = false).
Proof.
  unfold getValidInterfaces. rewrite valid_loop_filter. cbn [app].
  destruct (List.filter active_non_loopback ifaces) as [|x xs] eqn:E;
    cbn; [discriminate|].
  intros [= <-]. split_and!; [done..|].
  intros i. rewrite <- E, filter_In. unfold active_non_loopback.
  rewrite andb_true_iff, negb_true_iff. tauto.
Qed.

Lemma valid_interfaces_are_the_active_ones_witness :
  [eth0] = List.filter active_non_loopback [lo; eth0; eth1].
Proof.
  apply (valid_interfaces_are_the_active_ones [lo; eth0; eth1] [eth0]).
  reflexivity.
Defined.

(** X2: [getValidInterfaces] fails with its own error exactly when no
    interface is both up and not a loopback, in particular on an empty
    interface list; an error of [net.Interfaces] is passed on. *)
Theorem no_active_interface_is_an_error (ifaces : list Interface) (e : error) :
  ((forall i, In i ifaces -> active_non_loopback i = false) <->
   getValidInterfaces (inr ifaces)
   = inl (mkError "Could not find any non-loopback interfaces that are active"))
  /\ getValidInterfaces (inr [])
     = inl (mkError "Could not find any non-loopback interfaces that are active")
  /\ getValidInterfaces (inl e) = inl e.
Proof.
  split_and!; [|reflexivity..].
  unfold getValidInterfaces. rewrite valid_loop_filter. cbn [app]. split.
  - intros Hnone.
    destruct (List.filter active_non_loopback ifaces) as [|x xs] eqn:E; [done|].
    assert (Hin : In x (List.filter active_non_loopback ifaces))
      by (rewrite E; by left).
    apply filter_In in Hin as [Hin Ha]. rewrite (Hnone x Hin) in Ha. discriminate.
  - destruct (List.filter active_non_loopback ifaces) as [|x xs] eqn:E;
      cbn; [|discriminate].
    intros _ i Hin. destruct (active_non_loopback i) eqn:Ha; [|done].
    assert (Hf : In i (List.filter active_non_loopback ifaces))
      by (apply filter_In; done).
    rewrite E in Hf. destruct Hf.
Qed.

Lemma addr_loop_none (addr : IP) (l : list Addr) :
  addr_loop addr l = None <-> (forall a, In a l -> ~ has_addr addr a).
Proof.
  induction l as [|a l IH]; cbn [addr_loop].
  - split; [intros _ a []|done].
  - assert (Hcons : (forall b, In b (a :: l) -> ~ has_addr addr b)
                    <-> ~ has_addr addr a /\ (forall b, In b l -> ~ has_addr addr b)).
    { split.
      - intros Hall. split; [apply Hall; by left|]. intros b Hb. apply Hall. by right.
      - intros [Ha Hall] b [<-|Hb]; [done|by apply Hall]. }
    rewrite Hcons, <- IH. unfold Equal.
    destruct a as [ip|ip m|]; cbn [has_addr]; try case_bool_decide;
      split; try discriminate; try tauto.
Qed.

Lemma addr_loop_some (addr : IP) (l : list Addr) (mask : IPMask) :
  addr_loop addr l = Some mask ->
  In (IPNetAddr addr mask) l \/ (In (IPAddr addr) l /\ mask = DefaultMask addr).
Proof.
  induction l as [|a l IH]; cbn [addr_loop]; [discriminate|].
  assert (Hrest : addr_loop addr l = Some mask ->
                  In (IPNetAddr addr mask) (a :: l)
                  \/ (In (IPAddr addr) (a :: l) /\ mask = DefaultMask addr)).
  { intros Hs. destruct (IH Hs) as [?|[? ?]]; [left|right; split]; try done; by right. }
  unfold Equal. destruct a as [ip|ip m|]; try case_bool_decide; subst; try done.
  - intros [= <-]. right. split; [by left|done].
  - intros [= <-]. left. by left.
Qed.

Lemma searched_in_vain_loop (Addrs : Interface -> error + list Addr)
  (addr : IP) (i : Interface) :
  searched_in_vain Addrs addr i <->
  exists ifaceAddrs, Addrs i = inr ifaceAddrs /\ addr_loop addr ifaceAddrs = None.
Proof.
  unfold searched_in_vain. split; intros (l & Hl & Hno); exists l; (split; [done|]).
  - apply addr_loop_none. intros a Ha Hh. specialize (Hno a Ha).
    by destruct a.
  - intros a Ha. pose proof (proj1 (addr_loop_none addr l) Hno a Ha) as Hn.
    destruct a; cbn in Hn; done.
Qed.

Lemma iface_loop_skip (Addrs : Interface -> error + list Addr) (addr : IP)
  (pre rest : list Interface) :
  (forall j, In j pre -> searched_in_vain Addrs addr j) ->
  iface_loop Addrs addr (pre ++ rest) = iface_loop Addrs addr rest.
Proof.
  induction pre as [|j pre IH]; intros Hpre; [done|].
  cbn [app iface_loop].
  destruct (proj1 (searched_in_vain_loop Addrs addr j) (Hpre j (or_introl eq_refl)))
    as (l & -> & ->).
  apply IH. intros k Hk. apply Hpre. by right.
Qed.

(** X3: when [getInterface] succeeds, the interface returned is the first
    one, in the order of [net.Interfaces], that has the address: every
    interface before it was queried successfully and does not have it.
    The mask returned is the mask of the matching network address, or the
    default mask of the address when the match is a plain IP address. *)
Theorem found_interface_is_first_match
  (Addrs : Interface -> error + list Addr) (ifaces : list Interface)
  (addr : IP) (iface : Interface) (mask : IPMask) :
  getInterface Addrs (inr ifaces) addr = inr (iface, mask) ->
  exists pre post ifaceAddrs,
    ifaces = pre ++ iface :: post
    /\ (forall j, In j pre -> searched_in_vain Addrs addr j)
    /\ Addrs iface = inr ifaceAddrs
    /\ (In (IPNetAddr addr mask) ifaceAddrs
        \/ (In (IPAddr addr) ifaceAddrs /\ mask = DefaultMask addr)).
Proof.
  cbn [getInterface]. induction ifaces as [|i rest IH]; cbn [iface_loop];
    [discriminate|].
  destruct (Addrs i) as [err|l] eqn:Hi; [discriminate|].
  destruct (addr_loop addr l) as [m|] eqn:Hl.
  - intros [= <- <-]. exists [], rest, l. split_and!; try done.
    by apply addr_loop_some.
  - intros Hrest. destruct (IH Hrest) as (pre & post & l' & -> & Hpre & Hf & Hm).
    exists (i :: pre), post, l'. split_and!; try done.
    intros j [<-|Hj]; [|by apply Hpre].
    apply searched_in_vain_loop. by exists l.
Qed.

Lemma found_interface_is_first_match_witness :
  exists pre post ifaceAddrs,
    [lo; eth0; eth1] = pre ++ eth0 :: post
    /\ (forall j, In j pre ->
          searched_in_vain sample_Addrs (IPv4 (quad 192 168 123 1)) j)
    /\ sample_Addrs eth0 = inr ifaceAddrs
    /\ (In (IPNetAddr (IPv4 (quad 192 168 123 1)) [255; 255; 255; 0]) ifaceAddrs
        \/ (In (IPAddr (IPv4 (quad 192 168 123 1))) ifaceAddrs
            /\ [255; 255; 255; 0] = DefaultMask (IPv4 (quad 192 168 123 1)))).
Proof.
  apply (found_interface_is_first_match sample_Addrs [lo; eth0; eth1]
           (IPv4 (quad 192 168 123 1)) eth0 [255; 255; 255; 0]).
  reflexivity.
Defined.

(** X4: when every interface can be queried and none has the address,
    [getInterface] fails with its not-found error; this includes the empty
    interface list.  An error of [net.Interfaces] is passed on. *)
Theorem unknown_address_is_not_found
  (Addrs : Interface -> error + list Addr) (ifaces : list Interface)
  (addr : IP) (e : error) :
  (forall j, In j ifaces -> searched_in_vain Addrs addr j) ->
  getInterface Addrs (inr ifaces) addr
  = inl (mkError "Could not find interface for address")
  /\ getInterface Addrs (inl e) addr = inl e.
Proof.
  intros Hall. split; [|reflexivity]. cbn [getInterface].
  rewrite <- (app_nil_r ifaces). by rewrite iface_loop_skip.
Qed.

Lemma unknown_address_is_not_found_witness :
  getInterface sample_Addrs (inr [lo; eth0]) (IPv4 (quad 10 0 0 9))
  = inl (mkError "Could not find interface for address").
Proof.
  apply (unknown_address_is_not_found sample_Addrs [lo; eth0]
           (IPv4 (quad 10 0 0 9)) (mkError "unused")).
  intros j [<-|[<-|[]]]; eexists; (split; [reflexivity|]).
  - intros a [<-|[]]. vm_compute. discriminate.
  - intros a [<-|[<-|[]]]; [exact I|]. vm_compute. discriminate.
Defined.

(** X5: an interface whose addresses cannot be queried ends the search
    with that error when no earlier interface has the address, even if a
    later interface has it. *)
Theorem address_query_error_ends_search
  (Addrs : Interface -> error + list Addr) (pre post : list Interface)
  (bad : Interface) (addr : IP) (err : error) :
  (forall j, In j pre -> searched_in_vain Addrs addr j) ->
  Addrs bad = inl err ->
  getInterface Addrs (inr (pre ++ bad :: post)) addr = inl err.
Proof.
  intros Hpre Hbad. cbn [getInterface]. rewrite iface_loop_skip by done.
  cbn [iface_loop]. by rewrite Hbad.
Qed.

Lemma address_query_error_ends_search_witness :
  getInterface
    (fun i => if String.eqb (if_Name i) "lo"
              then inl (mkError "route ip+net: no such network interface")
              else sample_Addrs i)
    (inr ([] ++ lo :: [eth0])) (IPv4 (quad 192 168 123 1))
  = inl (mkError "route ip+net: no such network interface").
Proof.
  apply (address_query_error_ends_search _ [] [eth0] lo).
  - intros j [].
  - reflexivity.
Defined.

End IfacesFacts.

(** ** More properties of the listener supervisor *)

Module SupervisorMore.
Import Net Go Const Http Srv Supervisor Fixture SupervisorFacts.

(** X6: the defaults of [Serve] only fill in what is unset: a port that
    is not zero and a forwarder list that is not empty are kept, a zero
    port becomes the protocol's port, no port is zero afterwards unless
    the protocol's port is, and applying the defaults twice changes
    nothing more.  No other field of the server is touched. *)
Theorem serve_defaults_fill_only_unset (s : Server) :
  let s' := Serve_defaults s in
  DHCPPort s' = (if DHCPPort s =? 0 then 67 else DHCPPort s)
  /\ TFTPPort s' = (if TFTPPort s =? 0 then 69 else TFTPPort s)
  /\ PXEPort s' = (if PXEPort s =? 0 then 4011 else PXEPort s)
  /\ HTTPPort s' = (if HTTPPort s =? 0 then 8080 else HTTPPort s)
  /\ DNSPort s' = (if DNSPort s =? 0 then 53 else DNSPort s)
  /\ (DHCPPort s' <> 0 /\ TFTPPort s' <> 0 /\ PXEPort s' <> 0
      /\ HTTPPort s' <> 0 /\ DNSPort s' <> 0)
  /\ (ForwardDns s <> [] -> ForwardDns s' = ForwardDns s)
  /\ ForwardDns s' <> []
  /\ Serve_defaults s' = s'
  /\ set_ForwardDns (ForwardDns s)
       (set_ports (DHCPPort s) (TFTPPort s) (PXEPort s) (HTTPPort s) (DNSPort s) s')
     = s.
Proof.
  cbv zeta. unfold Serve_defaults, portDHCP, portTFTP, portPXE, portHTTP, portDNS.
  destruct s as [r ip gw nt fw intf cp px recs al d4 d6 dr p1 p2 p3 p4 p5 ch].
  cbn [set_ports set_ForwardDns ForwardDns DHCPPort TFTPPort PXEPort HTTPPort DNSPort
       ServerRoot IP_ GWIP Net_ Intf Controlplane ProxyDHCP DHCPRecords DHCPAllocator
       DNSRecordsv4 DNSRecordsv6 DNSRRecords errs].
  destruct fw as [|f fw]; cbn [length Nat.eqb set_ForwardDns set_ports ForwardDns
       DHCPPort TFTPPort PXEPort HTTPPort DNSPort
       ServerRoot IP_ GWIP Net_ Intf Controlplane ProxyDHCP DHCPRecords DHCPAllocator
       DNSRecordsv4 DNSRecordsv6 DNSRRecords errs];
    destruct (Z.eqb_spec p1 0), (Z.eqb_spec p2 0), (Z.eqb_spec p3 0),
      (Z.eqb_spec p4 0), (Z.eqb_spec p5 0); subst;
    repeat match goal with
           | |- context [?x =? 0] =>
               match x with
               | 0 => change (0 =? 0) with true
               | _ => first [ change (x =? 0) with false
                            | rewrite (proj2 (Z.eqb_neq x 0)) by assumption ]
               end
           end;
    cbn [length Nat.eqb set_ForwardDns]; split_and!; done.
Qed.

Lemma open_sockets_app (tr1 tr2 : list Event) :
  open_sockets (tr1 ++ tr2)
  = foldl (fun held e =>
             match e with
             | Bound c => c :: held
             | Closed c => remove_first c held
             | Started _ _ _ => held
             end) (open_sockets tr1) tr2.
Proof.
  unfold open_sockets. by rewrite foldl_app.
Qed.

Lemma Serve_open_sockets `{Library}
  (listen : list Socket -> Socket -> option error) (s0 : Server)
  (sched : list Action) :
  match (Serve listen s0 sched).2 with
  | Some _ => open_sockets (Serve listen s0 sched).1.2 = []
  | None =>
      length (open_sockets (Serve listen s0 sched).1.2) = 4%nat
      /\ length (started (Serve listen s0 sched).1.2) = 5%nat
  end.
Proof.
  unfold Serve, Serve_start.
  destruct (listen [] _) as [e1|]; [done|].
  destruct (listen [_] _) as [e2|].
  { cbn -[remove_first]. by rewrite !remove_first_head. }
  destruct (listen [_; _] _) as [e3|].
  { cbn -[remove_first]. by rewrite !remove_first_head. }
  destruct (listen [_; _; _] _) as [e4|].
  { cbn -[remove_first]. by rewrite !remove_first_head. }
  destruct (sup_result _) as [r|]; [|done].
  cbn -[remove_first]. by rewrite !remove_first_head.
Qed.

(** X7: [Serve] never leaves one of its own sockets open when it returns:
    whatever the binds answer and whatever the schedule, once [Serve] has
    returned every socket it bound has been closed.  While it is still
    blocked on the channel it holds its four sockets and has started its
    five loops. *)
Theorem serve_closes_its_sockets `{Library}
  (listen : list Socket -> Socket -> option error) (s0 : Server)
  (sched : list Action) :
  match (Serve listen s0 sched).2 with
  | Some _ => open_sockets (Serve listen s0 sched).1.2 = []
  | None =>
      length (open_sockets (Serve listen s0 sched).1.2) = 4%nat
      /\ length (started (Serve listen s0 sched).1.2) = 5%nat
  end.
Proof.
  apply Serve_open_sockets.
Qed.

(** The head of the pending outcomes is the head of everything sent so
    far, and senders wait only on a full channel. *)
Lemma head_invariant (c0 : Chan) (sched : list Action) :
  (0 < chan_cap c0)%nat ->
  let st := foldl step (mkSup c0 [] None) sched in
  chan_cap (sup_errs st) = chan_cap c0
  /\ (sup_blocked st <> [] -> (chan_cap c0 <= length (chan_buf (sup_errs st)))%nat)
  /\ match sup_result st with
     | None => head (chan_buf (sup_errs st)) = head (chan_buf c0 ++ sends sched)
     | Some v => head (chan_buf c0 ++ sends sched) = Some v
     end.
Proof.
  intros Hcap. cbv zeta.
  induction sched as [|a sched IH] using rev_ind.
  { cbn. split_and!; try done. by rewrite app_nil_r. }
  rewrite sends_snoc, foldl_snoc. destruct IH as (Hc & Hb & Hq).
  set (st := foldl step _ sched) in *.
  assert (Hgrow : forall x v, head (chan_buf c0 ++ sends sched) = Some v ->
                    head (chan_buf c0 ++ sends sched ++ x) = Some v).
  { intros x v. rewrite app_assoc. by destruct (chan_buf c0 ++ sends sched). }
  assert (Hsend : forall r,
             match sup_result st with
             | None => head (chan_buf (sup_errs st) ++ [r])
                       = head (chan_buf c0 ++ sends sched ++ [r])
             | Some v => head (chan_buf c0 ++ sends sched ++ [r]) = Some v
             end).
  { intros r. destruct (sup_result st) as [v|]; [by apply Hgrow|].
    rewrite app_assoc.
    destruct (chan_buf (sup_errs st)), (chan_buf c0 ++ sends sched); done. }
  assert (Hkeep : forall x, (chan_cap c0 <= length (chan_buf (sup_errs st)))%nat ->
             match sup_result st with
             | None => head (chan_buf (sup_errs st))
                       = head (chan_buf c0 ++ sends sched ++ x)
             | Some v => head (chan_buf c0 ++ sends sched ++ x) = Some v
             end).
  { intros x Hfull. destruct (sup_result st) as [v|]; [by apply Hgrow|].
    destruct (chan_buf (sup_errs st)) as [|v q] eqn:Eb; [cbn in Hfull; lia|].
    cbn in Hq |- *. symmetry. apply Hgrow. by symmetry. }
  destruct a as [l r| |]; cbn [step].
  - unfold chan_full. rewrite Hc.
    destruct (Nat.leb_spec (chan_cap c0) (length (chan_buf (sup_errs st))))
      as [Hfull|Hroom]; cbn.
    + split_and!; [done|done|]. by apply Hkeep.
    + split_and!; [done| |by apply Hsend].
      intros Hne. specialize (Hb Hne). lia.
  - unfold try_send, chan_full. rewrite Hc.
    destruct (Nat.leb_spec (chan_cap c0) (length (chan_buf (sup_errs st))))
      as [Hfull|Hroom]; cbn.
    + split_and!; [done|done|]. by apply Hkeep.
    + split_and!; [done| |by apply Hsend].
      intros Hne. specialize (Hb Hne). lia.
  - rewrite app_nil_r.
    destruct (sup_result st) as [v|] eqn:Hr.
    { cbn. rewrite Hr. done. }
    destruct (chan_buf (sup_errs st)) as [|v q] eqn:Eb.
    { cbn. rewrite Hr, Eb. done. }
    destruct (sup_blocked st) as [|[l r] bl] eqn:Ebl; cbn.
    + split_and!; done.
    + split_and!; [done| |done].
      intros _. rewrite length_app. cbn in Hb |- *.
      specialize (Hb ltac:(done)). lia.
Qed.

(** X8: [Serve] returns the outcome that was first in line, under every
    schedule: when its receive has returned a value, that value is the
    oldest outcome pending when [Serve] began to wait or, if none was
    pending, the first outcome sent afterwards, even when later senders
    found the channel full.  It returns as soon as its receive is
    scheduled with an outcome in line, and a sender waits only while the
    channel is full. *)
Theorem serve_returns_head_under_every_schedule (s : Server)
  (sched : list Action) :
  (0 < chan_cap (errs s))%nat ->
  let st := Serve_wait s sched in
  (forall v, sup_result st = Some v ->
     head (chan_buf (errs s) ++ sends sched) = Some v)
  /\ (sup_blocked st <> [] ->
      (chan_cap (errs s) <= length (chan_buf (sup_errs st)))%nat)
  /\ (forall pre post v,
        sched = pre ++ ServeReceive :: post ->
        head (chan_buf (errs s) ++ sends pre) = Some v ->
        sup_result st = Some v).
Proof.
  intros Hcap. cbv zeta. unfold Serve_wait.
  destruct (head_invariant (errs s) sched Hcap) as (_ & Hb & Hq).
  split_and!.
  - intros v Hr. by rewrite Hr in Hq.
  - exact Hb.
  - intros pre post v -> Hpre.
    destruct (head_invariant (errs s) pre Hcap) as (_ & Hb' & Hq').
    rewrite foldl_app. cbn [foldl]. apply result_stable.
    set (st := foldl step _ pre) in *. cbn [step].
    destruct (sup_result st) as [v'|] eqn:Hr.
    + rewrite Hr. congruence.
    + rewrite Hpre in Hq'.
      destruct (chan_buf (sup_errs st)) as [|v0 q]; [done|].
      injection Hq' as ->. by destruct (sup_blocked st) as [|[? ?] ?].
Qed.

Lemma serve_returns_head_under_every_schedule_witness :
  sup_result
    (Serve_wait srv0
       (repeat ShutdownCall 7
          ++ [LoopReturns DNS (Some (mkError "bind: address in use"));
              ServeReceive; LoopReturns TFTP None]))
  = Some None.
Proof.
  refine (proj2 (proj2 (serve_returns_head_under_every_schedule srv0 _ _))
            (repeat ShutdownCall 7
               ++ [LoopReturns DNS (Some (mkError "bind: address in use"))])
            [LoopReturns TFTP None] None _ eq_refl).
  - vm_compute. lia.
  - reflexivity.
Defined.

(** X9: repeated calls of [Shutdown] fill the free slots of the channel
    with nil outcomes and then stop having an effect: after [n] calls the
    pending outcomes are the old ones followed by as many nils as there
    were calls, up to the number of free slots. *)
Theorem shutdown_calls_fill_free_slots (s : Server) (n : nat) :
  chan_buf (errs (Nat.iter n Shutdown s))
  = chan_buf (errs s)
    ++ repeat None (n `min` (chan_cap (errs s) - length (chan_buf (errs s))))
  /\ chan_cap (errs (Nat.iter n Shutdown s)) = chan_cap (errs s).
Proof.
  induction n as [|n [IHb IHc]].
  { cbn. by rewrite app_nil_r. }
  rewrite Nat.iter_succ. generalize dependent (Nat.iter n Shutdown s).
  intros s' IHb IHc. unfold Shutdown, try_send, chan_full.
  change (errs (set_errs ?c s')) with c.
  rewrite IHc, IHb, length_app, repeat_length.
  destruct (Nat.leb_spec (chan_cap (errs s))
              (length (chan_buf (errs s))
               + n `min` (chan_cap (errs s) - length (chan_buf (errs s)))));
    cbn [chan_buf chan_cap]; (split; [|done]).
  - rewrite IHb. f_equal. f_equal. lia.
  - rewrite <- app_assoc. f_equal.
    replace (S n `min` (chan_cap (errs s) - length (chan_buf (errs s))))%nat
      with (S (n `min` (chan_cap (errs s) - length (chan_buf (errs s)))))%nat by lia.
    by rewrite <- repeat_cons.
Qed.

End SupervisorMore.

(** ** More properties of the boot dispatch filter *)

Module DispatchMore.
Import Net Go Const Http Srv Dispatch Fixture DispatchFacts.

Lemma append_nil_r (x : string) : x +:+ EmptyString = x.
Proof.
  induction x as [|c x IH]; [done|].
  change (String c (x +:+ EmptyString) = String c x). by rewrite IH.
Qed.

Lemma append_assoc (x y z : string) : (x +:+ y) +:+ z = x +:+ (y +:+ z).
Proof.
  induction x as [|c x IH]; [done|].
  change (String c ((x +:+ y) +:+ z) = String c (x +:+ (y +:+ z))).
  by rewrite IH.
Qed.

Lemma rr_writeHeader_frame `{Library} (b : string) (rr : ResponseRecorder) :
  Body (rr_writeHeader b rr) = Body rr
  /\ wroteHeader (rr_writeHeader b rr) = true
  /\ Code (rr_writeHeader b rr) = (if wroteHeader rr then Code rr else StatusOK).
Proof.
  unfold rr_writeHeader, rr_WriteHeader. by destruct rr as [c h bd []].
Qed.

Lemma rr_writeHeader_written `{Library} (b : string) (rr : ResponseRecorder) :
  wroteHeader rr = true -> rr_writeHeader b rr = rr.
Proof.
  unfold rr_writeHeader. by intros ->.
Qed.

(** Executing a template with at least one node on a response recorder
    never fails: the header is written on the first write, which is the
    text of the first node, and the rendered text is appended to the
    body. *)
Lemma Execute_recorder `{Library} (t : list Node)
  (rr : ResponseRecorder) (s : Server) :
  t <> [] ->
  Execute t rr s
  = (mkRecorder (Code (rr_writeHeader (first_write t s) rr))
       (HeaderMap (rr_writeHeader (first_write t s) rr))
       (Body rr +:+ render t s) true, None).
Proof.
  intros Hne. destruct t as [|n t]; [done|]. clear Hne.
  assert (Hrest : forall t' c h b,
             Execute t' (mkRecorder c h b true) s
             = (mkRecorder c h (b +:+ render t' s) true, None)).
  { induction t' as [|n' t' IH]; intros c h b.
    - cbn [Execute render foldr]. by rewrite append_nil_r.
    - cbn [Execute render foldr Write recorder_writer]. unfold rr_Write.
      rewrite rr_writeHeader_written by done.
      cbn [Code HeaderMap Body]. rewrite IH. by rewrite append_assoc. }
  cbn [Execute Write recorder_writer]. unfold rr_Write.
  destruct (rr_writeHeader_frame
              match n with TextNode x => x | FieldIP => IP_String (IP_ s) end rr)
    as (Hb & _ & _).
  rewrite Hrest, Hb, append_assoc.
  by destruct n.
Qed.

(** X10: when the wrapped handler answers a boot request with status 200,
    the client (a response recorder) is sent the boot menu rendered for
    the server's address; its header is written by the first write of
    the menu, so the status is 200 unless the client had already written
    one, and a content type sniffed from the first text of the menu is
    set unless the header was already written or already names a type or
    a transfer encoding.  The captured response is dropped, the server
    is unchanged and one line is logged.  On a fresh recorder the result
    has status 200 and the sniffed content type as its only header. *)
Theorem captured_ok_serves_menu `{Library}
  (primaryHandler : forall W : Type, ResponseWriter W -> W -> Request -> W)
  (s : Server) (w : ResponseRecorder) (req : Request) :
  boot_path req ->
  Code (primaryHandler ResponseRecorder _ NewRecorder req) = StatusOK ->
  ipxeWrapperMenuHandler primaryHandler s w req
  = mkOutcome
      (mkRecorder (if wroteHeader w then Code w else StatusOK)
         (HeaderMap (rr_writeHeader (first_write ipxeMenuTemplate s) w))
         (Body w +:+ render ipxeMenuTemplate s) true)
      s [(InfoLevel, "Serving menu")]
  /\ ipxeWrapperMenuHandler primaryHandler s NewRecorder req
     = mkOutcome
         (mkRecorder StatusOK
            (<[CanonicalMIMEHeaderKey "Content-Type"
               := [DetectContentType (first_write ipxeMenuTemplate s)]]> ∅)
            (render ipxeMenuTemplate s) true)
         s [(InfoLevel, "Serving menu")].
Proof.
  intros Hp Hc.
  rewrite !(captured_ok_branch primaryHandler s _ req Hp Hc).
  rewrite !Execute_recorder by (unfold ipxeMenuTemplate; discriminate).
  split.
  - by destruct (rr_writeHeader_frame (first_write ipxeMenuTemplate s) w)
      as (_ & _ & ->).
  - reflexivity.
Qed.

Lemma captured_ok_serves_menu_witness :
  ipxeWrapperMenuHandler (H := testLib) found_handler srv0 NewRecorder boot_req
  = mkOutcome
      (mkRecorder 200 (<["Content-Type" := ["text/plain; charset=utf-8"]]> ∅)
         (render (H := testLib) ipxeMenuTemplate srv0) true)
      srv0 [(InfoLevel, "Serving menu")].
Proof.
  etrans.
  - apply (proj2 (captured_ok_serves_menu (H := testLib) found_handler srv0
                    NewRecorder boot_req (or_intror eq_refl) eq_refl)).
  - reflexivity.
Defined.

(** X11: when the wrapped handler answers a boot request with a status
    other than 200 and the form parses, the client (a response recorder
    that has not written its header) is sent the captured status and the
    captured body, and the captured headers are added to its own; the
    server changes only for the types [init] and [controlplane], by one
    registration of the parsed [ip] parameter under the control-plane
    name. *)
Theorem captured_other_is_relayed `{Library}
  (primaryHandler : forall W : Type, ResponseWriter W -> W -> Request -> W)
  (s : Server) (w : ResponseRecorder) (req : Request) (form : Values) :
  boot_path req ->
  Code (primaryHandler ResponseRecorder _ NewRecorder req) <> StatusOK ->
  ParseForm req = inr form ->
  wroteHeader w = false ->
  let rr := primaryHandler ResponseRecorder _ NewRecorder req in
  ipxeWrapperMenuHandler primaryHandler s w req
  = mkOutcome
      (mkRecorder (Code rr) (copy_headers (HeaderMap rr) (HeaderMap w))
         (Body w +:+ Body rr) true)
      (if String.eqb (Get form "type") "init"
          || String.eqb (Get form "type") "controlplane"
       then registerDNSEntry (Controlplane s) (ParseIP (Get form "ip")) s
       else s)
      [(InfoLevel,
        "Selecting " +:+ Get form "type" +:+ " for "
          +:+ IP_String (ParseIP (Get form "ip")))].
Proof.
  intros Hp Hc Hf Hw. cbv zeta. unfold ipxeWrapperMenuHandler.
  rewrite (boot_path_test _ Hp).
  apply Z.eqb_neq in Hc. rewrite Hc, Hf. cbn [negb].
  destruct w as [c h b wh]. cbn in Hw. subst wh.
  reflexivity.
Qed.

Lemma captured_other_is_relayed_witness :
  Code (out_w (ipxeWrapperMenuHandler (H := testLib) missing_handler srv0
                 NewRecorder boot_req)) = StatusNotFound.
Proof.
  rewrite (captured_other_is_relayed (H := testLib) missing_handler srv0
             NewRecorder boot_req
             (<["type" := ["controlplane"]]> (<["ip" := ["10.0.0.5"]]> ∅))
             (or_intror eq_refl)).
  - reflexivity.
  - vm_compute. discriminate.
  - reflexivity.
  - reflexivity.
Defined.

Lemma add_values_lookup `{Library} (key : string) (values : list string)
  (h : Values) (k : string) :
  CanonicalMIMEHeaderKey key = key ->
  foldl (fun h value => Header_Add key value h) h values !! k
  = if decide (k = key)
    then match values with
         | [] => h !! k
         | _ => Some (default [] (h !! key) ++ values)
         end
    else h !! k.
Proof.
  intros Hcanon. revert h. induction values as [|v vs IH]; intros h.
  - cbn. by case_decide.
  - cbn [foldl]. rewrite IH. unfold Header_Add. rewrite Hcanon.
    case_decide as Hk.
    + subst k. rewrite lookup_insert_eq. cbn [default].
      destruct vs; [done|]. unfold id. by rewrite <- app_assoc.
    + by rewrite lookup_insert_ne.
Qed.

(** The lookups of the copy as the model of the handler computes it. *)
Lemma copy_headers_lookup `{Library} (from to : Values) :
  (forall key values, from !! key = Some values -> CanonicalMIMEHeaderKey key = key) ->
  forall key,
    copy_headers from to !! key
    = match from !! key with
      | Some (v :: vs) => Some (default [] (to !! key) ++ v :: vs)
      | _ => to !! key
      end.
Proof.
  unfold copy_headers.
  apply (map_fold_weak_ind
           (fun r m =>
              (forall key values, m !! key = Some values ->
                                  CanonicalMIMEHeaderKey key = key) ->
              forall key,
                r !! key = match m !! key with
                           | Some (v :: vs) => Some (default [] (to !! key) ++ v :: vs)
                           | _ => to !! key
                           end)).
  - intros _ key. by rewrite lookup_empty.
  - intros i x m r Hi IH Hcanon key.
    assert (Hci : CanonicalMIMEHeaderKey i = i).
    { apply (Hcanon i x). by rewrite lookup_insert_eq. }
    assert (IH' : forall k, r !! k = match m !! k with
                                     | Some (v :: vs) =>
                                         Some (default [] (to !! k) ++ v :: vs)
                                     | _ => to !! k
                                     end).
    { apply IH. intros k vs Hk. apply (Hcanon k vs).
      rewrite lookup_insert_ne; [done|]. intros ->. congruence. }
    rewrite add_values_lookup by done. case_decide as Hk.
    + subst key. rewrite lookup_insert_eq. rewrite !IH', Hi.
      by destruct x.
    + rewrite lookup_insert_ne by done. apply IH'.
Qed.

(** The lookups of the copy for a traversal that visits each key once. *)
Lemma copy_headers_in_lookup `{Library} (order : list (string * list string))
  (to : Values) :
  NoDup order.*1 ->
  (forall entry, entry ∈ order -> CanonicalMIMEHeaderKey entry.1 = entry.1) ->
  forall key,
    copy_headers_in order to !! key
    = match (list_to_map order : Values) !! key with
      | Some (v :: vs) => Some (default [] (to !! key) ++ v :: vs)
      | _ => to !! key
      end.
Proof.
  unfold copy_headers_in. revert to.
  induction order as [|[k values] order IH]; intros to Hnd Hcanon key.
  - cbn. by rewrite lookup_empty.
  - cbn [foldl fst snd]. apply NoDup_cons in Hnd as [Hk Hnd].
    rewrite IH; [|done|intros e He; apply Hcanon; by right].
    rewrite add_values_lookup by (apply (Hcanon (k, values)); by left).
    cbn [list_to_map foldr uncurry]. change (foldr _ ∅ order) with
      (list_to_map order : Values).
    case_decide as Hkey.
    + subst key. rewrite lookup_insert_eq.
      rewrite (not_elem_of_list_to_map_1 (M := gmap string) order k Hk).
      by destruct values.
    + by rewrite lookup_insert_ne.
Qed.

(** X12: the copy of the captured headers does not depend on the order in
    which the [range] loop visits the captured header map, when the
    captured keys are in canonical form: for every order of the captured
    entries the client's header map ends up the same, and it is the one
    the model of the handler computes.  Under every captured key that
    has values it holds the client's previous values followed by the
    captured values in their order; keys that were not captured, or
    captured without a value, keep what the client had. *)
Theorem headers_copied_in_any_order `{Library} (from to : Values)
  (order : list (string * list string)) :
  (forall key values, from !! key = Some values -> CanonicalMIMEHeaderKey key = key) ->
  order ≡ₚ map_to_list from ->
  copy_headers_in order to = copy_headers from to
  /\ (forall key,
        copy_headers_in order to !! key
        = match from !! key with
          | Some (v :: vs) => Some (default [] (to !! key) ++ v :: vs)
          | _ => to !! key
          end).
Proof.
  intros Hcanon Hperm.
  assert (Hnd : NoDup order.*1).
  { rewrite Hperm. apply NoDup_fst_map_to_list. }
  assert (Hc : forall entry, entry ∈ order ->
                 CanonicalMIMEHeaderKey entry.1 = entry.1).
  { intros [k vs] He. rewrite Hperm in He.
    apply elem_of_map_to_list in He. by apply (Hcanon k vs). }
  assert (Hmap : (list_to_map order : Values) = from).
  { rewrite (list_to_map_proper order (map_to_list from) Hnd Hperm).
    apply list_to_map_to_list. }
  assert (Hlook : forall key,
             copy_headers_in order to !! key
             = match from !! key with
               | Some (v :: vs) => Some (default [] (to !! key) ++ v :: vs)
               | _ => to !! key
               end).
  { intros key. rewrite copy_headers_in_lookup by done. by rewrite Hmap. }
  split; [|exact Hlook].
  apply map_eq. intros key. rewrite Hlook. symmetry.
  by apply copy_headers_lookup.
Qed.

Lemma headers_copied_in_any_order_witness :
  copy_headers_in (H := testLib)
    [("X-Served-By", ["matchbox"]); ("Content-Type", ["text/plain"; "charset=utf-8"])]
    (<["Content-Type" := ["text/html"]]> ∅)
  = copy_headers (H := testLib)
      (<["Content-Type" := ["text/plain"; "charset=utf-8"]]>
         (<["X-Served-By" := ["matchbox"]]> ∅))
      (<["Content-Type" := ["text/html"]]> ∅)
  /\ copy_headers_in (H := testLib)
       [("Content-Type", ["text/plain"; "charset=utf-8"]); ("X-Served-By", ["matchbox"])]
       (<["Content-Type" := ["text/html"]]> ∅)
     = copy_headers (H := testLib)
         (<["Content-Type" := ["text/plain"; "charset=utf-8"]]>
            (<["X-Served-By" := ["matchbox"]]> ∅))
         (<["Content-Type" := ["text/html"]]> ∅).
Proof.
  split.
  - destruct (headers_copied_in_any_order (H := testLib)
                (<["Content-Type" := ["text/plain"; "charset=utf-8"]]>
                   (<["X-Served-By" := ["matchbox"]]> ∅))
                (<["Content-Type" := ["text/html"]]> ∅)
                [("X-Served-By", ["matchbox"]);
                 ("Content-Type", ["text/plain"; "charset=utf-8"])])
      as [Heq _]; [intros; reflexivity| |exact Heq].
    vm_compute. first [reflexivity | apply perm_swap].
  - destruct (headers_copied_in_any_order (H := testLib)
                (<["Content-Type" := ["text/plain"; "charset=utf-8"]]>
                   (<["X-Served-By" := ["matchbox"]]> ∅))
                (<["Content-Type" := ["text/html"]]> ∅)
                [("Content-Type", ["text/plain"; "charset=utf-8"]);
                 ("X-Served-By", ["matchbox"])])
      as [Heq _]; [intros; reflexivity| |exact Heq].
    vm_compute. first [reflexivity | apply perm_swap].
Defined.

End DispatchMore.

(** ** More properties of the bootstrap mode selector *)

Module BootstrapMore.
Import Net Go Const Http Srv Planner Bootstrap Fixture Samples BootstrapFacts.

(** X13: [runDhclient] returns either a lease or an error, never both and
    never neither.  A lease is the one the client delivered, and it was
    delivered no later than ten seconds after the start; the error is
    always the same one, and it is returned only when nothing was
    delivered before ten seconds were over. *)
Theorem dhclient_lease_xor_error (bound : option (Z * Lease)) (pick : bool) :
  match runDhclient bound pick with
  | (Some lease, None) =>
      exists t, bound = Some (t, lease) /\ t <= 10 * 1000000000
  | (None, Some e) =>
      e = mkError "Could not get DHCP"
      /\ (forall t lease, bound = Some (t, lease) -> 10 * 1000000000 <= t)
  | _ => False
  end.
Proof.
  unfold runDhclient, Second. destruct bound as [[t lease]|]; [|done].
  destruct (Z.ltb_spec t (10 * 1000000000)).
  { exists t. split; [done|lia]. }
  destruct (Z.eqb_spec t (10 * 1000000000)); cbn.
  - destruct pick; cbn.
    + exists t. split; [done|lia].
    + split; [done|]. intros ? ? [= <- <-]. lia.
  - split; [done|]. intros ? ? [= <- <-]. lia.
Qed.

Section Link.
Context `{Library}.

Lemma add_gateways_ext (l1 l2 : LinkOp -> LinkResult) (routers : list IP) :
  (forall op, fatal (l1 op) = fatal (l2 op)) ->
  add_gateways l1 routers = add_gateways l2 routers.
Proof.
  intros Hf. induction routers as [|r rest IH]; [done|].
  cbn [add_gateways]. by rewrite Hf, IH.
Qed.

Lemma apply_overrides_errs (flags : Flags) (s : Server) :
  errs (apply_overrides flags s) = errs s.
Proof.
  unfold apply_overrides.
  by destruct (String.eqb (gwAddr flags) _), (String.eqb (dnsAddr flags) _).
Qed.

(** [main] hands [Serve] the channel that [NewServer] made. *)
Lemma main_bootstrap_errs (link : LinkOp -> LinkResult) (flags : Flags)
  (intf : string) (bound : option (Z * Lease)) (pick : bool)
  (s : Server) (ops : list LinkOp) :
  main_bootstrap link flags intf bound pick = Ready s ops ->
  errs s = make_chan 6.
Proof.
  unfold main_bootstrap. destruct (runDhclient bound pick) as [lease e].
  destruct (select_mode link flags _ lease) as [s1 ops1|] eqn:Hsel; [|done].
  intros [= <- <-]. rewrite apply_overrides_errs.
  unfold select_mode in Hsel. destruct lease as [lease|].
  - destruct (fatal (link _)); [done|].
    destruct (add_gateways link (Router lease)) as [o [?|]]; [done|].
    injection Hsel as <- _. cbn [set_ProxyDHCP set_IP errs].
    by destruct (add_forwarders_frame (DNS_ lease)
                   (NewServer (root flags) intf (controlplane flags))) as (_ & _ & ->).
  - destruct (ParseCIDR (ipAddr flags)) as [|[netIp netNet]]; [done|].
    destruct (getAvailableRange netNet netIp) as [[]|r]; [done|].
    destruct (NewIPv4Allocator (first r) (last r)); [done|].
    destruct (fatal (link _)); [done|]. by injection Hsel as <- _.
Qed.

End Link.

(** X14: the overrides win over what either mode learned: when the
    gateway flag is set the gateway is the parsed flag, otherwise it is
    the server's own address; when the DNS flag is set the forwarder list
    is exactly that flag, taken as it is written, and any leased DNS
    server is dropped. *)
Theorem overrides_take_precedence `{Library} (link : LinkOp -> LinkResult)
  (flags : Flags) (intf : string) (bound : option (Z * Lease)) (pick : bool)
  (s : Server) (ops : list LinkOp) :
  main_bootstrap link flags intf bound pick = Ready s ops ->
  GWIP s = (if String.eqb (gwAddr flags) EmptyString then IP_ s
            else ParseIP (gwAddr flags))
  /\ (dnsAddr flags <> EmptyString -> ForwardDns s = [dnsAddr flags]).
Proof.
  unfold main_bootstrap. destruct (runDhclient bound pick) as [lease e].
  destruct (select_mode link flags _ lease) as [s1 ops1|]; [|done].
  intros [= <- <-]. unfold apply_overrides.
  destruct (String.eqb (gwAddr flags) EmptyString);
    destruct (String.eqb_spec (dnsAddr flags) EmptyString); cbn; done.
Qed.

Lemma overrides_take_precedence_witness :
  exists s ops,
    main_bootstrap (H := testLib) link_ok
      (mkFlags "." "eth0" "192.168.123.1/24" "10.0.0.5" "9.9.9.9" defaultControlplane)
      "eth0" (Some (3 * Second, lease0)) false = Ready s ops
    /\ GWIP s = IPv4 (quad 10 0 0 5)
    /\ ForwardDns s = ["9.9.9.9"].
Proof.
  eexists _, _. split; [reflexivity|].
  destruct (overrides_take_precedence (H := testLib) link_ok
              (mkFlags "." "eth0" "192.168.123.1/24" "10.0.0.5" "9.9.9.9"
                 defaultControlplane)
              "eth0" (Some (3 * Second, lease0)) false _ _ eq_refl) as [Hg Hd].
  split; [exact Hg|]. apply Hd. discriminate.
Defined.

(** X15: once a lease arrived in time the static prefix flag plays no
    part: [main] goes on in the same way whatever the flag holds, so an
    unparsable static prefix does no harm in proxy mode. *)
Theorem lease_makes_static_prefix_irrelevant `{Library}
  (link : LinkOp -> LinkResult) (r i a a' g d c intf : string)
  (t : Z) (lease : Lease) (pick : bool) :
  t < 10 * Second ->
  main_bootstrap link (mkFlags r i a g d c) intf (Some (t, lease)) pick
  = main_bootstrap link (mkFlags r i a' g d c) intf (Some (t, lease)) pick.
Proof.
  intros Ht. unfold main_bootstrap, runDhclient.
  destruct (Z.ltb_spec t (10 * Second)); [reflexivity|lia].
Qed.

Lemma lease_makes_static_prefix_irrelevant_witness :
  main_bootstrap (H := testLib) link_ok
    (mkFlags "." "eth0" "192.168.123.1/24" EmptyString EmptyString defaultControlplane)
    "eth0" (Some (3 * Second, lease0)) false
  = main_bootstrap (H := testLib) link_ok
      (mkFlags "." "eth0" "not a prefix" EmptyString EmptyString defaultControlplane)
      "eth0" (Some (3 * Second, lease0)) false.
Proof.
  apply (lease_makes_static_prefix_irrelevant (H := testLib)).
  vm_compute. reflexivity.
Defined.

(** X16: the answers of the link matter only through the test for a
    fatal error, which lets [EEXIST] pass: two links that fail fatally
    on the same calls with the same errors lead [main] to the same
    state, so an address or gateway that is already assigned changes
    nothing. *)
Theorem link_matters_only_through_fatal `{Library}
  (l1 l2 : LinkOp -> LinkResult) (flags : Flags) (intf : string)
  (bound : option (Z * Lease)) (pick : bool) :
  (forall op, fatal (l1 op) = fatal (l2 op)) ->
  main_bootstrap l1 flags intf bound pick = main_bootstrap l2 flags intf bound pick.
Proof.
  intros Hf. unfold main_bootstrap. destruct (runDhclient bound pick) as [lease e].
  assert (Hsel : forall srv, select_mode l1 flags srv lease
                             = select_mode l2 flags srv lease).
  { intros srv. unfold select_mode. destruct lease as [lease|].
    - by rewrite Hf, (add_gateways_ext l1 l2).
    - destruct (ParseCIDR (ipAddr flags)) as [|[netIp netNet]]; [done|].
      destruct (getAvailableRange netNet netIp) as [[]|r]; [done|].
      destruct (NewIPv4Allocator (first r) (last r)); [done|]. by rewrite Hf. }
  by rewrite Hsel.
Qed.

Lemma link_matters_only_through_fatal_witness :
  main_bootstrap (H := testLib) link_eexist default_flags "eth0"
    (Some (3 * Second, lease0)) false
  = main_bootstrap (H := testLib) link_ok default_flags "eth0"
      (Some (3 * Second, lease0)) false.
Proof.
  apply (link_matters_only_through_fatal (H := testLib) link_eexist link_ok).
  intros op. reflexivity.
Defined.

(** X17: without a lease, [main] touches the link only after the static
    prefix was parsed, the range planned and the allocator built: a
    panic leaves the link untouched, except when the one call that
    applies the static address is itself what failed. *)
Theorem authoritative_panic_before_link `{Library}
  (link : LinkOp -> LinkResult) (flags : Flags) (intf : string)
  (bound : option (Z * Lease)) (pick : bool) (msg : string) (ops : list LinkOp) :
  (runDhclient bound pick).1 = None ->
  main_bootstrap link flags intf bound pick = Panicked msg ops ->
  ops = []
  \/ exists netIp netNet e,
       ParseCIDR (ipAddr flags) = inr (netIp, netNet)
       /\ ops = [SetLinkIp (IPv4 netIp) (IPv4 (net_IP netNet)) (net_ones netNet)]
       /\ link (SetLinkIp (IPv4 netIp) (IPv4 (net_IP netNet)) (net_ones netNet))
          = LinkErr e
       /\ msg = error_msg e.
Proof.
  unfold main_bootstrap. destruct (runDhclient bound pick) as [lease e].
  cbn [fst]. intros ->. cbn [select_mode].
  destruct (ParseCIDR (ipAddr flags)) as [|[netIp netNet]] eqn:Hc.
  { intros [= <- <-]. by left. }
  destruct (getAvailableRange netNet netIp) as [[]|r].
  { intros [= <- <-]. by left. }
  destruct (NewIPv4Allocator (first r) (last r)).
  { intros [= <- <-]. by left. }
  destruct (link (SetLinkIp _ _ _)) as [| |e'] eqn:Hl; cbn [fatal]; try done.
  intros [= <- <-]. right. by exists netIp, netNet, e'.
Qed.

Lemma authoritative_panic_before_link_witness :
  main_bootstrap (H := testLib) link_ok
    (mkFlags "." "eth0" "not a prefix" EmptyString EmptyString defaultControlplane)
    "eth0" None false
  = Panicked "invalid memory address or nil pointer dereference" []
  /\ ([] = ([] : list LinkOp) \/ exists netIp netNet e,
       ParseCIDR (Library := testLib) "not a prefix" = inr (netIp, netNet)
       /\ [] = [SetLinkIp (IPv4 netIp) (IPv4 (net_IP netNet)) (net_ones netNet)]
       /\ link_ok (SetLinkIp (IPv4 netIp) (IPv4 (net_IP netNet)) (net_ones netNet))
          = LinkErr e
       /\ "invalid memory address or nil pointer dereference" = error_msg e).
Proof.
  split; [reflexivity|].
  apply (authoritative_panic_before_link (H := testLib) link_ok
           (mkFlags "." "eth0" "not a prefix" EmptyString EmptyString
              defaultControlplane) "eth0" None false).
  - reflexivity.
  - reflexivity.
Defined.

(** X18: the loop over the leased routers stops at the first gateway
    that cannot be set: it has then tried exactly the routers up to and
    including that one, in order; the earlier ones did not fail fatally
    and the later ones were never tried. *)
Theorem gateways_stop_at_first_fatal (link : LinkOp -> LinkResult)
  (routers : list IP) (ops : list LinkOp) (e : error) :
  add_gateways link routers = (ops, Some e) ->
  exists pre r post,
    routers = pre ++ r :: post
    /\ ops = map SetLinkDefaultGw (pre ++ [r])
    /\ link (SetLinkDefaultGw r) = LinkErr e
    /\ (forall x, In x pre -> fatal (link (SetLinkDefaultGw x)) = None).
Proof.
  revert ops. induction routers as [|r rest IH]; intros ops; cbn [add_gateways];
    [discriminate|].
  destruct (link (SetLinkDefaultGw r)) as [| |e'] eqn:Hl; cbn [fatal].
  - destruct (add_gateways link rest) as [ops' res] eqn:Hr.
    intros [= <- ->]. destruct (IH ops' eq_refl) as (pre & r' & post & -> & -> & He & Hpre).
    exists (r :: pre), r', post. split_and!; try done.
    intros x [<-|Hx]; [by rewrite Hl|by apply Hpre].
  - destruct (add_gateways link rest) as [ops' res] eqn:Hr.
    intros [= <- ->]. destruct (IH ops' eq_refl) as (pre & r' & post & -> & -> & He & Hpre).
    exists (r :: pre), r', post. split_and!; try done.
    intros x [<-|Hx]; [by rewrite Hl|by apply Hpre].
  - intros [= <- <-]. exists [], r, rest. split_and!; done.
Qed.

Lemma gateways_stop_at_first_fatal_witness :
  exists pre r post,
    [IPv4 (quad 10 0 0 1); IPv4 (quad 10 0 0 2); IPv4 (quad 10 0 0 3)]
    = pre ++ r :: post
    /\ [SetLinkDefaultGw (IPv4 (quad 10 0 0 1)); SetLinkDefaultGw (IPv4 (quad 10 0 0 2))]
       = map SetLinkDefaultGw (pre ++ [r])
    /\ link_gw2_down (SetLinkDefaultGw r) = LinkErr (mkError "network is unreachable")
    /\ (forall x, In x pre -> fatal (link_gw2_down (SetLinkDefaultGw x)) = None).
Proof.
  apply (gateways_stop_at_first_fatal link_gw2_down).
  reflexivity.
Defined.

End BootstrapMore.

(** ** Properties of the entry point *)

Module EntryFacts.
Import Net Go Const Http Srv Supervisor Bootstrap Ifaces Entry Fixture Samples.
Import SupervisorFacts SupervisorMore BootstrapMore.

Lemma Serve_start_failed `{Library}
  (listen : list Socket -> Socket -> option error) (s0 : Server) (err : error) :
  (Serve_start listen s0).2 = Some err ->
  started (Serve_start listen s0).1.2 = [].
Proof.
  unfold Serve_start.
  destruct (listen [] _); [done|]. destruct (listen [_] _); [done|].
  destruct (listen [_; _] _); [done|]. by destruct (listen [_; _; _] _).
Qed.

(** X19: how [main] ends is decided by the first outcome on the channel:
    it returns normally only when the first outcome sent is nil (a
    [Shutdown], or a loop that stopped without an error), and once the
    loops have been started it panics only with the error that was the
    first outcome sent. *)
Theorem main_exit_follows_first_outcome `{Library} (flags : Flags) (h : Host) :
  match (main flags h).1.1 with
  | Returned => head (sends (host_sched h)) = Some None
  | Panic msg =>
      started (main flags h).2 <> [] ->
      exists e, head (sends (host_sched h)) = Some (Some e) /\ msg = error_msg e
  | Blocked => True
  end.
Proof.
  unfold main.
  destruct (getValidInterfaces (host_interfaces h)); [by cbn|].
  destruct (host_NewLinkFrom h (ifName flags)) as [|name]; [by cbn|].
  destruct (host_SetLinkUp h); [by cbn|].
  destruct (main_bootstrap _ _ _ _ _) as [server ops|msg ops] eqn:Hb; [|by cbn].
  apply main_bootstrap_errs in Hb. unfold Serve.
  pose proof (Serve_start_server (host_listen h) server) as Hs.
  pose proof (Serve_start_failed (host_listen h) server) as Hf.
  destruct (Serve_start (host_listen h) server) as [[s1 tr] r].
  cbn [fst snd] in Hs, Hf. subst s1. destruct r as [err|].
  { cbn -[started]. intros Hne. by rewrite (Hf err eq_refl) in Hne. }
  destruct (head_invariant (errs (Serve_defaults server)) (host_sched h))
    as (_ & _ & Hq).
  { rewrite Serve_defaults_errs, Hb. cbn. lia. }
  rewrite Serve_defaults_errs, Hb in Hq. cbn [make_chan chan_buf app] in Hq.
  unfold Serve_wait. rewrite Serve_defaults_errs, Hb. unfold make_chan.
  destruct (sup_result _) as [[err|]|]; cbn; [|done..].
  intros _. by exists err.
Qed.

(** X20: [main] never ends with one of the sockets of [Serve] still
    open: whether it returns or panics, at whatever stage, every socket
    that was bound has been closed again. *)
Theorem main_leaves_no_socket_open `{Library} (flags : Flags) (h : Host) :
  (main flags h).1.1 <> Blocked ->
  open_sockets (main flags h).2 = [].
Proof.
  unfold main.
  destruct (getValidInterfaces (host_interfaces h)); [by cbn|].
  destruct (host_NewLinkFrom h (ifName flags)) as [|name]; [by cbn|].
  destruct (host_SetLinkUp h); [by cbn|].
  destruct (main_bootstrap _ _ _ _ _) as [server ops|msg ops]; [|by cbn].
  pose proof (Serve_open_sockets (host_listen h) server (host_sched h)) as Ho.
  destruct (Serve (host_listen h) server (host_sched h)) as [[s1 tr] [[err|]|]];
    cbn in Ho |- *; done.
Qed.

Lemma main_leaves_no_socket_open_witness :
  (main (H := testLib) default_flags host0).1.1 = Returned
  /\ open_sockets (main (H := testLib) default_flags host0).2 = [].
Proof.
  split; [reflexivity|].
  apply (main_leaves_no_socket_open (H := testLib) default_flags host0).
  vm_compute. discriminate.
Defined.

End EntryFacts.
